(** * Kids English Helper: the weekly planner and the two HTTP clients

    A shallow embedding of [kids_english_helper/streamlit_app.py].

    Python values are modelled as follows.
    - [int] is [Z] (unbounded, as in Python).
    - [str] is [string], holding the UTF-8 encoding of the text; the
      operations that count characters ([[:600]], iteration over a [str])
      count UTF-8 lead bytes.
    - the dict literals built by [rule_based_plan] have a fixed set of keys and
      are records here; [py_of_plan] gives them back as ordered dicts, the
      form in which they are exported.
    - values that come from a JSON body are [pyval]. *)

From Stdlib Require Import ZArith List String Ascii Bool Lia.
From Stdlib Require Import DecimalString DecimalZ DecimalPos DecimalN DecimalFacts.
Import ListNotations.

Open Scope string_scope.
Open Scope Z_scope.

(** ** Python values *)

Module Py.

#[local] Unset Elimination Schemes.

(** The values [json.loads] can return.  A [float] is kept as the text of its
    literal: the program never computes with one, it only passes it on or
    tests it for zero. *)
Inductive pyval : Type :=
| PNone : pyval
| PBool : bool -> pyval
| PInt : Z -> pyval
| PFloat : string -> pyval
| PStr : string -> pyval
| PList : list pyval -> pyval
| PDict : list (string * pyval) -> pyval.

#[local] Set Elimination Schemes.

(** Induction that also reaches the values inside lists and dicts. *)
Section Nested_induction.

Variable P : pyval -> Prop.
Hypothesis HNone : P PNone.
Hypothesis HBool : forall b, P (PBool b).
Hypothesis HInt : forall n, P (PInt n).
Hypothesis HFloat : forall lexeme, P (PFloat lexeme).
Hypothesis HStr : forall s, P (PStr s).
Hypothesis HList : forall items, Forall P items -> P (PList items).
Hypothesis HDict :
  forall pairs, Forall (fun kv => P (snd kv)) pairs -> P (PDict pairs).

Fixpoint pyval_nested_ind (v : pyval) : P v :=
  match v with
  | PNone => HNone
  | PBool b => HBool b
  | PInt n => HInt n
  | PFloat lexeme => HFloat lexeme
  | PStr s => HStr s
  | PList items =>
    HList items
      ((fix all (l : list pyval) : Forall P l :=
          match l with
          | [] => Forall_nil P
          | x :: rest => Forall_cons x (pyval_nested_ind x) (all rest)
          end) items)
  | PDict pairs =>
    HDict pairs
      ((fix all (l : list (string * pyval)) : Forall (fun kv => P (snd kv)) l :=
          match l with
          | [] => Forall_nil _
          | kv :: rest =>
            Forall_cons (P := fun kv => P (snd kv)) kv
              (pyval_nested_ind (snd kv)) (all rest)
          end) pairs)
  end.

End Nested_induction.

(** [str(n)] for an [int]. *)
Definition str_of_int (n : Z) : string :=
  NilZero.string_of_int (Z.to_int n).

(** [xs[i]] for a list and an index the caller keeps inside the list. *)
Definition index {A : Type} (xs : list A) (i : Z) (dflt : A) : A :=
  nth (Z.to_nat i) xs dflt.

(** [range(n)]: empty when [n <= 0]. *)
Definition range (n : Z) : list Z :=
  map Z.of_nat (seq 0 (Z.to_nat n)).

(** [sub in s] for two strings. *)
Fixpoint contains (sub s : string) : bool :=
  String.prefix sub s ||
  match s with
  | EmptyString => false
  | String _ rest => contains sub rest
  end.

End Py.

Import Py.

(** ** The rule-based weekly planner *)

Record Activity : Type := mkActivity {
  day : string;
  type : string;
  item : string;
  focus_phrases : list string;
  missions : list string
}.

Record WeeklyPlan : Type := mkWeeklyPlan {
  weekly_goals : string;
  activities : list Activity;
  time_per_day : Z
}.

Definition focus_bank : list (string * list string) :=
  [ ("A0", ["Hello!"; "My name is ..."; "I like ..."]);
    ("A1", ["Can I ...?"; "I want ..."; "It's my turn."]);
    ("A2", ["Yesterday I ..."; "Because ..."; "Let's try ..."]);
    ("B1", ["In my opinion ..."; "I prefer ..."; "Be careful!"]) ].

(** [d.get(key, dflt)] on a dict of phrase lists. *)
Fixpoint bank_get (d : list (string * list string)) (key : string)
  (dflt : list string) : list string :=
  match d with
  | [] => dflt
  | (k, v) :: rest => if String.eqb k key then v else bank_get rest key dflt
  end.

Definition days : list string :=
  ["Mon"; "Tue"; "Wed"; "Thu"; "Fri"; "Sat"; "Sun"].

(** The four activity kinds: listening, speaking, reading, writing. *)
Definition types : list string :=
  ["듣기"; "말하기"; "읽기"; "쓰기"].

Definition rule_based_plan (age : Z) (level character : string)
  (sessions_per_week minutes_per_session : Z) : WeeklyPlan :=
  let phrases := bank_get focus_bank level (bank_get focus_bank "A1" []) in
  let activities :=
    map (fun i =>
           {| day := index days (i mod 7) "";
              type := index types (i mod 4) "";
              item := character ++ " clip/read";
              focus_phrases := phrases;
              missions := ["표현 스티커 찾기"; "섀도잉 2회"; "가정 대화 1회 사용"] |})
        (range sessions_per_week) in
  {| weekly_goals :=
       str_of_int sessions_per_week ++ "회 × "
       ++ str_of_int minutes_per_session ++ "분 / 회";
     activities := activities;
     time_per_day := minutes_per_session |}.

(** ** The [json] module of the Python standard library

    [dumps] follows [json.encoder] with [ensure_ascii=False] and [loads]
    follows [json.decoder] and [json.scanner] (ASCII digits and strict
    hexadecimal escapes, as in the C scanner CPython runs).  A float is read
    as the text of its literal and written back as that text.  The recursion
    limit of the interpreter and its limit on the number of digits of an
    [int] are not modelled. *)

Module Json.

Local Open Scope char_scope.

Definition dquote : ascii := "034".
Definition backslash : ascii := "092".

Definition code (c : ascii) : N := N_of_ascii c.

Definition is_ws (c : ascii) : bool :=
  Ascii.eqb c " " || Ascii.eqb c "009" || Ascii.eqb c "010" || Ascii.eqb c "013".

Definition is_digit (c : ascii) : bool :=
  (48 <=? code c)%N && (code c <=? 57)%N.

Definition is_control (c : ascii) : bool := (code c <? 32)%N.

(** *** Encoder *)

Definition hex_digit (n : N) : ascii :=
  if (n <? 10)%N then ascii_of_N (48 + n) else ascii_of_N (87 + n).

(** [ESCAPE_DCT]: the replacement of one character of a string. *)
Definition escape_char (c : ascii) : string :=
  if Ascii.eqb c backslash then String backslash (String backslash "")
  else if Ascii.eqb c dquote then String backslash (String dquote "")
  else if Ascii.eqb c "008" then String backslash "b"
  else if Ascii.eqb c "012" then String backslash "f"
  else if Ascii.eqb c "010" then String backslash "n"
  else if Ascii.eqb c "013" then String backslash "r"
  else if Ascii.eqb c "009" then String backslash "t"
  else if is_control c then
    String backslash
      (String "u" (String "0" (String "0"
        (String (hex_digit (code c / 16)) (String (hex_digit (code c mod 16)) "")))))
  else String c "".

Fixpoint escape (s : string) : string :=
  match s with
  | EmptyString => EmptyString
  | String c rest => (escape_char c ++ escape rest)%string
  end.

Definition encode_basestring (s : string) : string :=
  String dquote (escape s ++ String dquote "")%string.

Fixpoint spaces (n : nat) : string :=
  match n with
  | O => EmptyString
  | S k => String " " (spaces k)
  end.

(** [sep.join(parts)]. *)
Fixpoint join (sep : string) (parts : list string) : string :=
  match parts with
  | [] => EmptyString
  | [p] => p
  | p :: rest => (p ++ sep ++ join sep rest)%string
  end.

Section Encoder.

(** [indent]: [None] for the compact form, [Some n] for [indent=n]. *)
Variable indent : option nat.

Definition item_separator : string :=
  match indent with
  | None => ", "%string
  | Some _ => ","%string
  end.

Definition key_separator : string := ": "%string.

Definition newline_indent (level : nat) : string :=
  match indent with
  | None => EmptyString
  | Some n => String "010" (spaces (n * level))
  end.

Definition separator (level : nat) : string :=
  (item_separator ++ newline_indent level)%string.

(** [_iterencode] at nesting depth [level], all chunks concatenated. *)
Fixpoint iterencode (level : nat) (v : pyval) {struct v} : string :=
  match v with
  | PNone => "null"
  | PBool true => "true"
  | PBool false => "false"
  | PInt n => str_of_int n
  | PFloat lexeme => lexeme
  | PStr s => encode_basestring s
  | PList [] => "[]"
  | PList items =>
      String "["
        (newline_indent (S level)
         ++ join (separator (S level)) (map (iterencode (S level)) items)
         ++ newline_indent level ++ "]")
  | PDict [] => "{}"
  | PDict pairs =>
      String "{"
        (newline_indent (S level)
         ++ join (separator (S level))
              (map (fun kv =>
                      encode_basestring (fst kv) ++ key_separator
                      ++ iterencode (S level) (snd kv)) pairs)
         ++ newline_indent level ++ "}")
  end%string.

End Encoder.

(** [json.dumps(v, ensure_ascii=False)] and
    [json.dumps(v, ensure_ascii=False, indent=n)]. *)
Definition dumps (indent : option nat) (v : pyval) : string :=
  iterencode indent 0 v.

(** *** Decoder *)

Fixpoint skip_ws (s : string) : string :=
  match s with
  | EmptyString => EmptyString
  | String c rest => if is_ws c then skip_ws rest else s
  end.

Definition hex_val (c : ascii) : option N :=
  if is_digit c then Some (code c - 48)%N
  else if (97 <=? code c)%N && (code c <=? 102)%N then Some (code c - 87)%N
  else if (65 <=? code c)%N && (code c <=? 70)%N then Some (code c - 55)%N
  else None.

(** [_decode_uXXXX]: four hexadecimal digits. *)
Definition decode_uXXXX (a b c d : ascii) : option N :=
  match hex_val a, hex_val b, hex_val c, hex_val d with
  | Some x, Some y, Some z, Some w => Some (((x * 16 + y) * 16 + z) * 16 + w)%N
  | _, _, _, _ => None
  end.

(** [chr(cp)], in UTF-8 (a lone surrogate gets its three-byte form). *)
Definition chr (cp : N) : string :=
  let cont (n : N) := ascii_of_N (N.lor 128 (N.land n 63)) in
  if (cp <? 128)%N then String (ascii_of_N cp) ""
  else if (cp <? 2048)%N then
    String (ascii_of_N (N.lor 192 (N.shiftr cp 6))) (String (cont cp) "")
  else if (cp <? 65536)%N then
    String (ascii_of_N (N.lor 224 (N.shiftr cp 12)))
      (String (cont (N.shiftr cp 6)) (String (cont cp) ""))
  else
    String (ascii_of_N (N.lor 240 (N.shiftr cp 18)))
      (String (cont (N.shiftr cp 12))
         (String (cont (N.shiftr cp 6)) (String (cont cp) ""))).

(** [BACKSLASH]: the one-letter escapes. *)
Definition unescape (e : ascii) : option ascii :=
  if Ascii.eqb e dquote then Some dquote
  else if Ascii.eqb e backslash then Some backslash
  else if Ascii.eqb e "/" then Some "/"
  else if Ascii.eqb e "b" then Some "008"
  else if Ascii.eqb e "f" then Some "012"
  else if Ascii.eqb e "n" then Some "010"
  else if Ascii.eqb e "r" then Some "013"
  else if Ascii.eqb e "t" then Some "009"
  else None.

Definition is_high_surrogate (u : N) : bool := (55296 <=? u)%N && (u <=? 56319)%N.
Definition is_low_surrogate (u : N) : bool := (56320 <=? u)%N && (u <=? 57343)%N.

Definition prepend (chunk : string) (r : option (string * string))
  : option (string * string) :=
  match r with
  | Some (s, rest) => Some ((chunk ++ s)%string, rest)
  | None => None
  end.

(** [scanstring] (strict): the input starts just after the opening quote; the
    result is the decoded string and the input after the closing quote. *)
Fixpoint scanstring (s : string) : option (string * string) :=
  match s with
  | EmptyString => None
  | String c rest =>
    if Ascii.eqb c dquote then Some (EmptyString, rest)
    else if Ascii.eqb c backslash then
      match rest with
      | EmptyString => None
      | String e rest1 =>
        if Ascii.eqb e "u" then
          match rest1 with
          | String h1 (String h2 (String h3 (String h4 rest2))) =>
            match decode_uXXXX h1 h2 h3 h4 with
            | None => None
            | Some uni =>
              if is_high_surrogate uni then
                match rest2 with
                | String b (String u rest3) =>
                  if Ascii.eqb b backslash && Ascii.eqb u "u" then
                    match rest3 with
                    | String g1 (String g2 (String g3 (String g4 rest4))) =>
                      match decode_uXXXX g1 g2 g3 g4 with
                      | None => None
                      | Some uni2 =>
                        if is_low_surrogate uni2 then
                          prepend
                            (chr (65536 + N.lor (N.shiftl (uni - 55296) 10)
                                                (uni2 - 56320))%N)
                            (scanstring rest4)
                        else prepend (chr uni) (scanstring rest2)
                      end
                    | _ => None
                    end
                  else prepend (chr uni) (scanstring rest2)
                | _ => prepend (chr uni) (scanstring rest2)
                end
              else prepend (chr uni) (scanstring rest2)
            end
          | _ => None
          end
        else
          match unescape e with
          | Some ch => prepend (String ch "") (scanstring rest1)
          | None => None
          end
      end
    else if is_control c then None
    else prepend (String c "") (scanstring rest)
  end.

(** The longest prefix of decimal digits, and what follows it. *)
Fixpoint span_digits (s : string) : string * string :=
  match s with
  | EmptyString => (EmptyString, EmptyString)
  | String c rest =>
    if is_digit c then
      let (ds, rest') := span_digits rest in (String c ds, rest')
    else (EmptyString, s)
  end.

Definition is_empty (s : string) : bool :=
  match s with
  | EmptyString => true
  | String _ _ => false
  end.

(** The three groups of [NUMBER_RE]: an optional minus sign and either a
    single zero or a non-zero digit and more digits; a dot and one or more
    digits; [e] or [E], an optional sign and one or more digits. *)
Definition match_integer (s : string) : option (string * string) :=
  let (sign, s1) :=
    match s with
    | String "-" r => ("-"%string, r)
    | _ => (EmptyString, s)
    end in
  match s1 with
  | EmptyString => None
  | String c r =>
    if Ascii.eqb c "0" then Some ((sign ++ "0")%string, r)
    else if is_digit c then
      let (ds, r') := span_digits r in Some ((sign ++ String c ds)%string, r')
    else None
  end.

Definition match_frac (s : string) : string * string :=
  match s with
  | String "." r =>
    let (ds, r') := span_digits r in
    if is_empty ds then (EmptyString, s) else (String "." ds, r')
  | _ => (EmptyString, s)
  end.

Definition match_exp (s : string) : string * string :=
  match s with
  | String e r =>
    if Ascii.eqb e "e" || Ascii.eqb e "E" then
      let (sign, r1) :=
        match r with
        | String c r' =>
          if Ascii.eqb c "-" || Ascii.eqb c "+" then (String c "", r')
          else (EmptyString, r)
        | EmptyString => (EmptyString, r)
        end in
      let (ds, r2) := span_digits r1 in
      if is_empty ds then (EmptyString, s) else (String e (sign ++ ds), r2)
    else (EmptyString, s)
  | EmptyString => (EmptyString, s)
  end.

(** The number written by a string of decimal digits, after [acc]. *)
Fixpoint digits_value (acc : Z) (s : string) : Z :=
  match s with
  | EmptyString => acc
  | String c rest => digits_value (10 * acc + Z.of_N (code c - 48)) rest
  end.

(** [int(lexeme)] for a lexeme matched by the first group. *)
Definition parse_int (lexeme : string) : Z :=
  match lexeme with
  | String "-" ds => - digits_value 0 ds
  | _ => digits_value 0 lexeme
  end.

(** [match_number] and the branch of [scan_once] that uses its groups. *)
Definition match_number (s : string) : option (pyval * string) :=
  match match_integer s with
  | None => None
  | Some (integer, r) =>
    let (frac, r1) := match_frac r in
    let (exp, r2) := match_exp r1 in
    if is_empty frac && is_empty exp then Some (PInt (parse_int integer), r2)
    else Some (PFloat (integer ++ frac ++ exp), r2)
  end.

(** [dict(pairs)]: a repeated key keeps its first position and takes the
    last value. *)
Fixpoint dict_set (d : list (string * pyval)) (k : string) (v : pyval)
  : list (string * pyval) :=
  match d with
  | [] => [(k, v)]
  | (k', v') :: rest =>
    if String.eqb k' k then (k', v) :: rest else (k', v') :: dict_set rest k v
  end.

Definition dict_of_pairs (pairs : list (string * pyval)) : list (string * pyval) :=
  fold_left (fun d kv => dict_set d (fst kv) (snd kv)) pairs [].

(** If [s] starts with [lit], what follows it. *)
Fixpoint strip_prefix (lit s : string) : option string :=
  match lit, s with
  | EmptyString, _ => Some s
  | String a lit', String b s' =>
    if Ascii.eqb a b then strip_prefix lit' s' else None
  | String _ _, EmptyString => None
  end.

Definition literal (lit : string) (v : pyval) (s : string)
  : option (pyval * string) :=
  option_map (fun r => (v, r)) (strip_prefix lit s).

(** [scan_once], [JSONArray] and [JSONObject].  [array_items] is the loop of
    [JSONArray], entered at the first character of a value; [object_items] is
    the loop of [JSONObject], entered just after the opening quote of a key.
    [fuel] bounds the number of nested calls; [loads] gives as much as the
    input is long, which is enough for every input that can be read
    ([JsonFacts.loads_any_fuel]). *)
Fixpoint scan_once (fuel : nat) (s : string) {struct fuel}
  : option (pyval * string) :=
  match fuel with
  | O => None
  | S fuel' =>
    match s with
    | EmptyString => None
    | String c rest =>
      if Ascii.eqb c dquote then
        match scanstring rest with
        | Some (str, r) => Some (PStr str, r)
        | None => None
        end
      else if Ascii.eqb c "{" then
        match skip_ws rest with
        | String c1 r1 =>
          if Ascii.eqb c1 "}" then Some (PDict [], r1)
          else if Ascii.eqb c1 dquote then
            match object_items fuel' r1 with
            | Some (pairs, r) => Some (PDict (dict_of_pairs pairs), r)
            | None => None
            end
          else None
        | EmptyString => None
        end
      else if Ascii.eqb c "[" then
        match skip_ws rest with
        | String c1 r1 =>
          if Ascii.eqb c1 "]" then Some (PList [], r1)
          else
            match array_items fuel' (String c1 r1) with
            | Some (values, r) => Some (PList values, r)
            | None => None
            end
        | EmptyString => None
        end
      else if Ascii.eqb c "n" && String.prefix "null" s then literal "null" PNone s
      else if Ascii.eqb c "t" && String.prefix "true" s then
        literal "true" (PBool true) s
      else if Ascii.eqb c "f" && String.prefix "false" s then
        literal "false" (PBool false) s
      else
        match match_number s with
        | Some res => Some res
        | None =>
          if Ascii.eqb c "N" && String.prefix "NaN" s then
            literal "NaN" (PFloat "NaN") s
          else if Ascii.eqb c "I" && String.prefix "Infinity" s then
            literal "Infinity" (PFloat "Infinity") s
          else if Ascii.eqb c "-" && String.prefix "-Infinity" s then
            literal "-Infinity" (PFloat "-Infinity") s
          else None
        end
    end
  end

with array_items (fuel : nat) (s : string) {struct fuel}
  : option (list pyval * string) :=
  match fuel with
  | O => None
  | S fuel' =>
    match scan_once fuel' s with
    | None => None
    | Some (value, r) =>
      match skip_ws r with
      | String c r1 =>
        if Ascii.eqb c "]" then Some ([value], r1)
        else if Ascii.eqb c "," then
          match array_items fuel' (skip_ws r1) with
          | Some (values, r2) => Some (value :: values, r2)
          | None => None
          end
        else None
      | EmptyString => None
      end
    end
  end

with object_items (fuel : nat) (s : string) {struct fuel}
  : option (list (string * pyval) * string) :=
  match fuel with
  | O => None
  | S fuel' =>
    match scanstring s with
    | None => None
    | Some (key, r) =>
      match skip_ws r with
      | String c r1 =>
        if Ascii.eqb c ":" then
          match scan_once fuel' (skip_ws r1) with
          | None => None
          | Some (value, r2) =>
            match skip_ws r2 with
            | String c2 r3 =>
              if Ascii.eqb c2 "}" then Some ([(key, value)], r3)
              else if Ascii.eqb c2 "," then
                match skip_ws r3 with
                | String c3 r4 =>
                  if Ascii.eqb c3 dquote then
                    match object_items fuel' r4 with
                    | Some (pairs, r5) => Some ((key, value) :: pairs, r5)
                    | None => None
                    end
                  else None
                | EmptyString => None
                end
              else None
            | EmptyString => None
            end
          end
        else None
      | EmptyString => None
      end
    end
  end.

(** The byte order mark U+FEFF, which [loads] refuses at the start. *)
Definition bom : string := String "239" (String "187" (String "191" "")).

(** [json.loads(s)] for a [str]; [None] stands for [JSONDecodeError]. *)
Definition loads (s : string) : option pyval :=
  if String.prefix bom s then None
  else
    match scan_once (S (String.length s)) (skip_ws s) with
    | Some (v, r) => if is_empty (skip_ws r) then Some v else None
    | None => None
    end.

End Json.

(** ** Operations of Python values used by the application *)

Module PyOps.

(** The exceptions the application can meet. *)
Inductive exn : Type :=
| RequestException   (* [requests.post] failed: no connection, timeout *)
| HTTPError (status : Z)
| JSONDecodeError
| AttributeError
| KeyError
| IndexError
| TypeError.

(** A computation that returns or raises. *)
Definition result (A : Type) : Type := (exn + A)%type.

Definition is_cont_byte (c : ascii) : bool :=
  (128 <=? N_of_ascii c)%N && (N_of_ascii c <? 192)%N.

(** [s[:n]]: the first [n] characters of a [str]. *)
Fixpoint str_take (n : nat) (s : string) : string :=
  match s with
  | EmptyString => EmptyString
  | String c rest =>
    if is_cont_byte c then String c (str_take n rest)
    else
      match n with
      | O => EmptyString
      | S k => String c (str_take k rest)
      end
  end.

(** The characters of a [str], each as a [str] of length one. *)
Fixpoint str_chars (s : string) : list string :=
  match s with
  | EmptyString => []
  | String c rest =>
    match str_chars rest with
    | [] => [String c ""]
    | ch :: chars =>
      match rest with
      | String c' _ =>
        if is_cont_byte c' then String c ch :: chars
        else String c "" :: ch :: chars
      | EmptyString => [String c ""]
      end
    end
  end.

(** The exponent part of a float literal, which ends the literal: nothing, or
    [e] or [E], a sign or none, and digits. *)
Definition literal_exponent (s : string) : option Z :=
  match s with
  | EmptyString => Some 0
  | String c r =>
    if Ascii.eqb c "e" || Ascii.eqb c "E" then
      let (negative, digits) :=
        match r with
        | String "-" ds => (true, ds)
        | String "+" ds => (false, ds)
        | _ => (false, r)
        end in
      let (ds, rest) := Json.span_digits digits in
      if Json.is_empty ds || negb (Json.is_empty rest) then None
      else Some (if negative then - Json.digits_value 0 ds
                 else Json.digits_value 0 ds)
    else None
  end.

(** A decimal float literal without its sign, as the digits of its mantissa
    and a power of ten: the literal [i.f e x] stands for the number
    [m * 10^e] where [m] is the integer written [i f] and [e] is [x] less the
    number of the digits of [f].  [NaN] and [Infinity] are no such literal. *)
Definition float_literal (lexeme : string) : option (string * Z) :=
  let unsigned := match lexeme with String "-" r => r | _ => lexeme end in
  let (int_digits, r) := Json.span_digits unsigned in
  let (frac_digits, r1) :=
    match r with
    | String "." f => Json.span_digits f
    | _ => (EmptyString, r)
    end in
  if Json.is_empty int_digits then None
  else
    match literal_exponent r1 with
    | Some x => Some ((int_digits ++ frac_digits)%string,
                      x - Z.of_nat (String.length frac_digits))
    | None => None
    end.

(** [float(lexeme) == 0.0].  The conversion rounds to the nearest double, ties
    to even; the least positive double is [2^-1074], so the numbers that
    round to zero are those of magnitude at most [2^-1075].  A mantissa of
    [n] digits is below [10^n], so the power of ten is not computed when the
    exponent alone settles the comparison. *)
Definition float_is_zero (lexeme : string) : bool :=
  match float_literal lexeme with
  | None => false
  | Some (digits, e) =>
    let m := Json.digits_value 0 digits in
    if m =? 0 then true
    else if 0 <=? e then false
    else if Z.of_nat (String.length digits) + 400 <? - e then true
    else m * 2 ^ 1075 <=? 10 ^ (- e)
  end.

(** [bool(v)]. *)
Definition truthy (v : pyval) : bool :=
  match v with
  | PNone => false
  | PBool b => b
  | PInt n => negb (n =? 0)
  | PFloat lexeme => negb (float_is_zero lexeme)
  | PStr s => negb (Json.is_empty s)
  | PList l => match l with [] => false | _ :: _ => true end
  | PDict d => match d with [] => false | _ :: _ => true end
  end.

(** [a or b]. *)
Definition py_or (a b : pyval) : pyval := if truthy a then a else b.

Fixpoint lookup (d : list (string * pyval)) (key : string) : option pyval :=
  match d with
  | [] => None
  | (k, v) :: rest => if String.eqb k key then Some v else lookup rest key
  end.

(** [v.get(key, dflt)]: only a dict has [get]. *)
Definition dict_get (v : pyval) (key : string) (dflt : pyval) : result pyval :=
  match v with
  | PDict d =>
    match lookup d key with
    | Some x => inr x
    | None => inr dflt
    end
  | _ => inl AttributeError
  end.

(** [v[key]] for a [str] key. *)
Definition getitem_key (v : pyval) (key : string) : result pyval :=
  match v with
  | PDict d =>
    match lookup d key with
    | Some x => inr x
    | None => inl KeyError
    end
  | _ => inl TypeError
  end.

(** [v[0]]. *)
Definition getitem_0 (v : pyval) : result pyval :=
  match v with
  | PList (x :: _) => inr x
  | PList [] => inl IndexError
  | PStr s =>
    match str_chars s with
    | ch :: _ => inr (PStr ch)
    | [] => inl IndexError
    end
  | PDict _ => inl KeyError
  | _ => inl TypeError
  end.

(** [v[:n]]. *)
Definition slice_to (n : nat) (v : pyval) : result pyval :=
  match v with
  | PStr s => inr (PStr (str_take n s))
  | PList l => inr (PList (firstn n l))
  | _ => inl TypeError
  end.

(** The items a [for] loop over [v] visits. *)
Definition iterate (v : pyval) : result (list pyval) :=
  match v with
  | PList l => inr l
  | PStr s => inr (map PStr (str_chars s))
  | PDict d => inr (map (fun kv => PStr (fst kv)) d)
  | _ => inl TypeError
  end.

Fixpoint all_str (items : list pyval) : result (list string) :=
  match items with
  | [] => inr []
  | PStr s :: rest =>
    match all_str rest with
    | inr ss => inr (s :: ss)
    | inl e => inl e
    end
  | _ :: _ => inl TypeError
  end.

(** [sep.join(v)]. *)
Definition str_join (sep : string) (v : pyval) : result string :=
  match iterate v with
  | inl e => inl e
  | inr items =>
    match all_str items with
    | inl e => inl e
    | inr ss => inr (Json.join sep ss)
    end
  end.

(** [prefix + v] for a [str] prefix. *)
Definition str_add (prefix : string) (v : pyval) : result string :=
  match v with
  | PStr s => inr (prefix ++ s)
  | _ => inl TypeError
  end.

End PyOps.

Import PyOps.

(** ** Effects: the page and the network *)

Record http_request : Type := mkRequest {
  url : string;
  headers : list (string * string);
  (** the payload that is sent as [data=json.dumps(payload)] *)
  payload : pyval;
  timeout : Z
}.

(** What [requests.post] comes back with. *)
Inductive http_reply : Type :=
| NoReply                                   (* it raised *)
| Response (status_code : Z) (text : string).

(** What a run does to the outside, in order. *)
Inductive event : Type :=
| Post (req : http_request)
| St_warning (msg : string)
| St_error (msg : string) (e : exn)        (* the message ends with [str(e)] *)
| St_success (msg : string)
| St_markdown (msg : string)
| St_write (args : list pyval)
| St_container
| St_download_button (label data file_name mime : string).

(** A computation that leaves a trace of events and returns or raises. *)
Definition io (A : Type) : Type := (list event * result A)%type.

Definition ret {A : Type} (x : A) : io A := ([], inr x).

Definition raise {A : Type} (e : exn) : io A := ([], inl e).

Definition bind {A B : Type} (m : io A) (k : A -> io B) : io B :=
  match m with
  | (tr, inl e) => (tr, inl e)
  | (tr, inr x) => let (tr', r) := k x in ((tr ++ tr')%list, r)
  end.

Definition emit (ev : event) : io unit := ([ev], inr tt).

Definition lift {A : Type} (r : result A) : io A := ([], r).

(** [try: body / except Exception as e: handler e]. *)
Definition try_except {A : Type} (body : io A) (handler : exn -> io A) : io A :=
  match body with
  | (tr, inl e) => let (tr', r) := handler e in ((tr ++ tr')%list, r)
  | (tr, inr x) => (tr, inr x)
  end.

Declare Scope io_scope.
Delimit Scope io_scope with io.
Notation "x <- m ;; k" := (bind m (fun x => k))
  (at level 61, m at next level, right associativity) : io_scope.
Notation "m ;;; k" := (bind m (fun _ => k))
  (at level 61, right associativity) : io_scope.

(** [for x in xs: body x]. *)
Fixpoint for_each {A : Type} (xs : list A) (body : A -> io unit) : io unit :=
  match xs with
  | [] => ret tt
  | x :: rest => bind (body x) (fun _ => for_each rest body)
  end.

(** ** Configuration *)

Record settings : Type := mkSettings {
  SEARCH_ENDPOINT : string;
  SEARCH_KEY : string;
  SEARCH_INDEX : string;
  AOAI_ENDPOINT : string;
  AOAI_KEY : string;
  AOAI_DEPLOYMENT : string
}.

Section Configuration.

(** The secret store of the page, when it has one, and the process
    environment.  Without a secrets file there is no store: [None]. *)
Variable secrets : option (string -> option string).
Variable environ : string -> option string.

(** [st.secrets.get(name, os.getenv(name, default))].  The argument is
    evaluated first and cannot fail; reading the store raises when there is no
    secrets file, which is the [None] of the result. *)
Definition get_secret (name default : string) : option string :=
  let fallback :=
    match environ name with
    | Some v => v
    | None => default
    end in
  match secrets with
  | None => None
  | Some store =>
    match store name with
    | Some v => Some v
    | None => Some fallback
    end
  end.

(** The six module-level settings, read once and in the order of the source
    when the module is loaded.  [None]: the first read raised and the page has
    no settings, nor anything after them. *)
Definition load_settings : option settings :=
  match get_secret "AZURE_SEARCH_ENDPOINT" "" with
  | None => None
  | Some search_endpoint =>
  match get_secret "AZURE_SEARCH_KEY" "" with
  | None => None
  | Some search_key =>
  match get_secret "AZURE_SEARCH_INDEX" "" with
  | None => None
  | Some search_index =>
  match get_secret "AZURE_OPENAI_ENDPOINT" "" with
  | None => None
  | Some aoai_endpoint =>
  match get_secret "AZURE_OPENAI_KEY" "" with
  | None => None
  | Some aoai_key =>
  match get_secret "AZURE_OPENAI_DEPLOYMENT" "" with
  | None => None
  | Some aoai_deployment =>
    Some {| SEARCH_ENDPOINT := search_endpoint;
            SEARCH_KEY := search_key;
            SEARCH_INDEX := search_index;
            AOAI_ENDPOINT := aoai_endpoint;
            AOAI_KEY := aoai_key;
            AOAI_DEPLOYMENT := aoai_deployment |}
  end end end end end end.

End Configuration.

(** ** The two clients *)

Section Clients.

Variable cfg : settings.

(** The network: the reply to each request. *)
Variable net : http_request -> http_reply.

Local Open Scope io_scope.

Definition nonempty (s : string) : bool := negb (Json.is_empty s).

(** [requests.post(url, headers=headers, data=json.dumps(payload),
    timeout=...)]. *)
Definition requests_post (req : http_request) : io http_reply :=
  emit (Post req) ;;;
  match net req with
  | NoReply => raise RequestException
  | Response st body => ret (Response st body)
  end.

(** [r.raise_for_status()]. *)
Definition raise_for_status (r : http_reply) : io unit :=
  match r with
  | Response st _ =>
    if (400 <=? st) && (st <? 600) then raise (HTTPError st) else ret tt
  | NoReply => raise RequestException
  end.

(** [r.json()]. *)
Definition response_json (r : http_reply) : io pyval :=
  match r with
  | Response _ body =>
    match Json.loads body with
    | Some v => ret v
    | None => raise JSONDecodeError
    end
  | NoReply => raise RequestException
  end.

Definition search_configured : bool :=
  nonempty (SEARCH_ENDPOINT cfg) && nonempty (SEARCH_KEY cfg)
  && nonempty (SEARCH_INDEX cfg).

(** The url, headers and payload [azure_search] posts, and its timeout. *)
Definition search_request (query : string) (top : Z) : http_request :=
  {| url := (SEARCH_ENDPOINT cfg ++ "/indexes/" ++ SEARCH_INDEX cfg
             ++ "/docs/search?api-version=2023-11-01")%string;
     headers := [("Content-Type", "application/json");
                 ("api-key", SEARCH_KEY cfg)];
     payload := PDict [("search", PStr query); ("top", PInt top);
                       ("queryType", PStr "simple")];
     timeout := 30 |}.

Definition azure_search (query : string) (top : Z) : io pyval :=
  if negb search_configured then
    emit (St_warning "Azure AI Search 설정이 필요합니다.") ;;;
    ret (PList [])
  else
    try_except
      (r <- requests_post (search_request query top) ;;
       raise_for_status r ;;;
       data <- response_json r ;;
       lift (dict_get data "value" (PList [])))
      (fun e =>
         emit (St_error "검색 호출 실패: " e) ;;;
         ret (PList [])).

Definition aoai_configured : bool :=
  nonempty (AOAI_ENDPOINT cfg) && nonempty (AOAI_KEY cfg)
  && nonempty (AOAI_DEPLOYMENT cfg).

(** The url, headers and payload [aoai_chat] posts, and its timeout. *)
Definition chat_request (messages : pyval) (temperature : string)
  (max_tokens : Z) : http_request :=
  {| url := (AOAI_ENDPOINT cfg ++ "/openai/deployments/" ++ AOAI_DEPLOYMENT cfg
             ++ "/chat/completions?api-version=2024-06-01")%string;
     headers := [("Content-Type", "application/json");
                 ("api-key", AOAI_KEY cfg)];
     payload :=
       PDict [("messages", messages);
              ("temperature", PFloat temperature);
              ("max_tokens", PInt max_tokens);
              ("response_format", PDict [("type", PStr "json_object")])];
     timeout := 60 |}.

(** [json.loads(content)]. *)
Definition json_loads (content : pyval) : io pyval :=
  match content with
  | PStr text =>
    match Json.loads text with
    | Some v => ret v
    | None => raise JSONDecodeError
    end
  | _ => raise TypeError
  end.

(** [data["choices"][0]["message"]["content"]]. *)
Definition message_content (data : pyval) : result pyval :=
  match getitem_key data "choices" with
  | inl e => inl e
  | inr choices =>
    match getitem_0 choices with
    | inl e => inl e
    | inr choice =>
      match getitem_key choice "message" with
      | inl e => inl e
      | inr message => getitem_key message "content"
      end
    end
  end.

(** [temperature] is the text of the float, [0.3] by default. *)
Definition aoai_chat (messages : pyval) (temperature : string) (max_tokens : Z)
  : io pyval :=
  if negb aoai_configured then
    emit (St_warning "Azure OpenAI 설정이 필요합니다.") ;;;
    ret PNone
  else
    try_except
      (r <- requests_post (chat_request messages temperature max_tokens) ;;
       raise_for_status r ;;;
       data <- response_json r ;;
       content <- lift (message_content data) ;;
       json_loads content)
      (fun e =>
         emit (St_error "AOAI 호출 실패: " e) ;;;
         ret PNone).

End Clients.

(** ** The prompt of the enrichment call *)

(** The body of the loop of [build_rag_prompt]: one document, compressed. *)
Definition snippet (d : pyval) : result pyval :=
  match dict_get d "title" PNone with
  | inl e => inl e
  | inr t =>
    match dict_get d "id" (PStr "") with
    | inl e => inl e
    | inr i =>
      let title := py_or t i in
      match dict_get d "series" (PStr "") with
      | inl e => inl e
      | inr series =>
        match dict_get d "level" (PStr "") with
        | inl e => inl e
        | inr level =>
          match dict_get d "content" (PStr "") with
          | inl e => inl e
          | inr c =>
            match slice_to 600 (py_or c (PStr "")) with
            | inl e => inl e
            | inr content =>
              match dict_get d "phrases" (PList []) with
              | inl e => inl e
              | inr phrases =>
                inr (PDict [("title", title); ("series", series);
                            ("level", level); ("phrases", phrases);
                            ("content", content)])
              end
            end
          end
        end
      end
    end
  end.

Fixpoint snippets (docs : list pyval) : result (list pyval) :=
  match docs with
  | [] => inr []
  | d :: rest =>
    match snippet d with
    | inl e => inl e
    | inr sn =>
      match snippets rest with
      | inl e => inl e
      | inr sns => inr (sn :: sns)
      end
    end
  end.

Definition system_prompt : string :=
  "You are a kids English coach. Return JSON only. "
  ++ "Make outputs short, A1~A2 friendly, and actionable for parents.".

Definition build_rag_prompt (query : string) (docs : pyval) : result pyval :=
  match iterate docs with
  | inl e => inl e
  | inr ds =>
    match snippets ds with
    | inl e => inl e
    | inr sns =>
      let user :=
        PDict
          [("task", PStr "Create child-friendly summary + key phrases + 3 missions + parent coaching for the query");
           ("query", PStr query);
           ("docs", PList sns);
           ("output_schema",
            PDict
              [("summary", PStr "2-3 sentences for a child");
               ("focus_phrases", PList [PStr "..."; PStr "..."; PStr "..."]);
               ("missions",
                PList [PStr "find expression"; PStr "shadowing 2x";
                       PStr "use at home once"]);
               ("parent_tips", PList [PStr "praise line 1"; PStr "rule/tip 1"])])] in
      inr (PList
             [PDict [("role", PStr "system"); ("content", PStr system_prompt)];
              PDict [("role", PStr "user");
                     ("content", PStr (Json.dumps None user))]])
    end
  end.

(** ** What the page does with the results *)

Section Page.

Variable cfg : settings.
Variable net : http_request -> http_reply.

Local Open Scope io_scope.

(** [st.write("- " + m)]. *)
Definition write_item (m : pyval) : io unit :=
  line <- lift (str_add "- " m) ;;
  emit (St_write [PStr line]).

(** The enrichment block of the search tab, run when [do_rag] is ticked and
    the search returned something: prompt, call, display and export. *)
Definition show_rag (rag : pyval) : io unit :=
  if truthy rag then
    emit St_container ;;;
    emit (St_success "RAG 요약 생성됨") ;;;
    emit (St_markdown "**Child-friendly Summary**") ;;;
    summary <- lift (dict_get rag "summary" (PStr "")) ;;
    emit (St_write [summary]) ;;;
    emit (St_markdown "**Focus Phrases**") ;;;
    fp <- lift (dict_get rag "focus_phrases" (PList [])) ;;
    line <- lift (str_join ", " fp) ;;
    emit (St_write [PStr line]) ;;;
    emit (St_markdown "**Missions (3)**") ;;;
    ms <- lift (dict_get rag "missions" (PList [])) ;;
    items <- lift (iterate ms) ;;
    for_each items write_item ;;;
    emit (St_markdown "**Parent Tips**") ;;;
    ts <- lift (dict_get rag "parent_tips" (PList [])) ;;
    items <- lift (iterate ts) ;;
    for_each items write_item ;;;
    emit (St_download_button "다운로드: RAG 결과(JSON)"
            (Json.dumps (Some 2%nat) rag) "rag_result.json" "application/json")
  else ret tt.

Definition rag_block (q : string) (results : pyval) : io unit :=
  messages <- lift (build_rag_prompt q results) ;;
  rag <- aoai_chat cfg net messages "0.3" 800 ;;
  show_rag rag.

End Page.

(** The plan as the dict [rule_based_plan] builds, keys in insertion order. *)
Definition py_of_activity (a : Activity) : pyval :=
  PDict [("day", PStr (day a));
         ("type", PStr (type a));
         ("item", PStr (item a));
         ("focus_phrases", PList (map PStr (focus_phrases a)));
         ("missions", PList (map PStr (missions a)))].

Definition py_of_plan (p : WeeklyPlan) : pyval :=
  PDict [("weekly_goals", PStr (weekly_goals p));
         ("activities", PList (map py_of_activity (activities p)));
         ("time_per_day", PInt (time_per_day p))].

(** The document behind the download button of the plan tab:
    [json.dumps(plan, ensure_ascii=False, indent=2)]. *)
Definition week_plan_json (p : WeeklyPlan) : string :=
  Json.dumps (Some 2%nat) (py_of_plan p).

(** The plan tab once its button is pressed. *)
Definition plan_tab (age : Z) (level character : string) (sessions minutes : Z)
  : io unit :=
  let plan := rule_based_plan age level character sessions minutes in
  bind (emit (St_success "주간 계획이 생성되었습니다.")) (fun _ =>
  bind (for_each (activities plan) (fun act =>
          bind (emit St_container) (fun _ =>
          bind (emit (St_markdown ("**" ++ day act ++ "** — " ++ item act
                                   ++ " (" ++ type act ++ ")"))) (fun _ =>
          bind (emit (St_write [PStr "키 프레이즈:";
                                PStr (Json.join ", " (focus_phrases act))])) (fun _ =>
          emit (St_write [PStr "미션:";
                          PStr (Json.join ", " (missions act))])))))) (fun _ =>
  emit (St_download_button "다운로드: 주간 계획 JSON" (week_plan_json plan)
          "week_plan.json" "application/json"))).

(** ** [urllib.parse.quote_plus] *)

Module Urllib.

Local Open Scope char_scope.

(** [_ALWAYS_SAFE]: letters, digits and [_.-~]. *)
Definition always_safe (c : ascii) : bool :=
  let n := N_of_ascii c in
  ((65 <=? n)%N && (n <=? 90)%N) || ((97 <=? n)%N && (n <=? 122)%N)
  || ((48 <=? n)%N && (n <=? 57)%N)
  || Ascii.eqb c "_" || Ascii.eqb c "." || Ascii.eqb c "-" || Ascii.eqb c "~".

Definition hex_upper (n : N) : ascii :=
  if (n <? 10)%N then ascii_of_N (48 + n) else ascii_of_N (55 + n).

(** One byte of the UTF-8 text: a space becomes [+], a safe byte stays and
    any other byte becomes [%XX]. *)
Definition quote_byte (c : ascii) : string :=
  if Ascii.eqb c " " then String "+" ""
  else if always_safe c then String c ""
  else
    String "%"
      (String (hex_upper (N_of_ascii c / 16))
         (String (hex_upper (N_of_ascii c mod 16)) "")).

(** [quote_plus(s)] with the default [safe]. *)
Fixpoint quote_plus (s : string) : string :=
  match s with
  | EmptyString => EmptyString
  | String c rest => (quote_byte c ++ quote_plus rest)%string
  end.

End Urllib.

(** ** The search tab *)

(** [len(s)] for a [str]: one character per UTF-8 lead byte. *)
Fixpoint str_len (s : string) : nat :=
  match s with
  | EmptyString => O
  | String c rest => if is_cont_byte c then str_len rest else S (str_len rest)
  end.

(** What the search tab adds to the events of the clients. *)
Inductive page_event : Type :=
| Ui (ev : event)
| St_info (msg : string)
| St_markdown_f (parts : list pyval)   (* an f-string: [str()] of each part *)
| St_caption (msg : string)
| St_video (url : string).

Definition page (A : Type) : Type := (list page_event * result A)%type.

Definition page_ret {A : Type} (x : A) : page A := ([], inr x).

Definition page_bind {A B : Type} (m : page A) (k : A -> page B) : page B :=
  match m with
  | (tr, inl e) => (tr, inl e)
  | (tr, inr x) => let (tr', r) := k x in ((tr ++ tr')%list, r)
  end.

Definition show (ev : page_event) : page unit := ([ev], inr tt).

Definition page_lift {A : Type} (r : result A) : page A := ([], r).

(** A computation of the clients, run on the page. *)
Definition run {A : Type} (m : io A) : page A := (map Ui (fst m), snd m).

Fixpoint page_for_each {A : Type} (xs : list A) (body : A -> page unit)
  : page unit :=
  match xs with
  | [] => page_ret tt
  | x :: rest => page_bind (body x) (fun _ => page_for_each rest body)
  end.

Declare Scope page_scope.
Delimit Scope page_scope with page.
Notation "x <- m ;; k" := (page_bind m (fun x => k))
  (at level 61, m at next level, right associativity) : page_scope.
Notation "m ;;; k" := (page_bind m (fun _ => k))
  (at level 61, right associativity) : page_scope.

Definition search_options : list string :=
  ["Bluey"; "Peppa Pig"; "Dinosaur"; "Disney/Pixar"; "Pororo"; "기타"].

Definition yt_samples : list (string * list string) :=
  [ ("Bluey", ["https://www.youtube.com/embed/9JkQOYwYv6A";
               "https://www.youtube.com/embed/6R3NQb6pQ1w";
               "https://www.youtube.com/embed/4b6bLr2Qb6E"]);
    ("Peppa Pig", ["https://www.youtube.com/embed/9wK6A2eA5nA";
                   "https://www.youtube.com/embed/1S9UeQnUnxw";
                   "https://www.youtube.com/embed/2pLT-olgUJs"]);
    ("Dinosaur", ["https://www.youtube.com/embed/3o5y6z5l5xw";
                  "https://www.youtube.com/embed/2pLT-olgUJs";
                  "https://www.youtube.com/embed/1S9UeQnUnxw"]);
    ("Disney/Pixar", ["https://www.youtube.com/embed/0mvM6p5oQ9A";
                      "https://www.youtube.com/embed/6Qe6p6p6p6A";
                      "https://www.youtube.com/embed/7Qe7p7p7p7A"]);
    ("Pororo", ["https://www.youtube.com/embed/8Qe8p8p8p8A";
                "https://www.youtube.com/embed/9Qe9p9p9p9A";
                "https://www.youtube.com/embed/0Qe0p0p0p0A"]);
    ("기타", []) ].

Section Search_tab.

Variable cfg : settings.
Variable net : http_request -> http_reply.

Local Open Scope page_scope.

(** [content[:300] + ("..." if len(content) > 300 else "")]: only a [str]
    can be cut, measured and extended by a [str]. *)
Definition content_preview (content : pyval) : result string :=
  match content with
  | PStr s =>
    inr (str_take 300 s ++ (if (300 <? str_len s)%nat then "..." else ""))%string
  | _ => inl TypeError
  end.

(** The body of the loop over the results: one document in its container. *)
Definition show_doc (doc : pyval) : page unit :=
  show (Ui St_container) ;;;
  t <- page_lift (dict_get doc "title" PNone) ;;
  i <- page_lift (dict_get doc "id" PNone) ;;
  series <- page_lift (dict_get doc "series" (PStr "")) ;;
  level <- page_lift (dict_get doc "level" (PStr "")) ;;
  show (St_markdown_f [PStr "**"; py_or t i; PStr "**  •  "; series;
                       PStr "  •  "; level]) ;;;
  content <- page_lift (dict_get doc "content" (PStr "")) ;;
  (if truthy content then
     line <- page_lift (content_preview content) ;;
     show (Ui (St_write [PStr line]))
   else page_ret tt) ;;;
  phrases <- page_lift (dict_get doc "phrases" (PList [])) ;;
  if truthy phrases then
    line <- page_lift (str_join ", " phrases) ;;
    show (St_caption ("키 프레이즈: " ++ line))
  else page_ret tt.

(** The three videos of a known character, or a link to the search. *)
Definition youtube_section (q : string) : page unit :=
  show (Ui (St_markdown "---")) ;;;
  show (Ui (St_markdown ("### 유튜브에서 '" ++ q ++ "' 관련 영상 3개"))) ;;;
  let yt_query := Urllib.quote_plus (q ++ " cartoon") in
  let yt_search_url :=
    ("https://www.youtube.com/results?search_query=" ++ yt_query)%string in
  let yt_videos := bank_get yt_samples q [] in
  match yt_videos with
  | _ :: _ => page_for_each yt_videos (fun url => show (St_video url))
  | [] =>
    show (Ui (St_markdown ("[유튜브에서 '" ++ q ++ "' 영상 더 보기]("
                           ++ yt_search_url ++ ")")))
  end.

(** The search tab once its button is pressed, for the query [q], the slider
    value [top] and the state [do_rag] of the checkbox. *)
Definition search_tab (q : string) (top : Z) (do_rag : bool) : page unit :=
  results <- run (azure_search cfg net q top) ;;
  if negb (truthy results) then show (St_info "검색 결과가 없습니다.")
  else
    docs <- page_lift (iterate results) ;;
    page_for_each docs show_doc ;;;
    youtube_section q ;;;
    if do_rag then run (rag_block cfg net q results) else page_ret tt.

End Search_tab.

(** * Notions used to state the properties *)

Module Notions.

(** ** Values that JSON carries exactly *)

(** All the keys differ. *)
Fixpoint distinct (ks : list string) : bool :=
  match ks with
  | [] => true
  | k :: rest => negb (existsb (String.eqb k) rest) && distinct rest
  end.

(** A value without floats whose dicts have no repeated key. *)
Fixpoint plain (v : pyval) : bool :=
  match v with
  | PFloat _ => false
  | PList items => forallb plain items
  | PDict pairs =>
    distinct (map fst pairs) && forallb (fun kv => plain (snd kv)) pairs
  | _ => true
  end.

(** A string of JSON whitespace. *)
Fixpoint all_ws (s : string) : bool :=
  match s with
  | EmptyString => true
  | String c rest => Json.is_ws c && all_ws rest
  end.

(** What may follow a number without being taken for a part of it. *)
Definition ends_number (rest : string) : bool :=
  match rest with
  | EmptyString => true
  | String c _ =>
    negb (Json.is_digit c || Ascii.eqb c "." || Ascii.eqb c "e" || Ascii.eqb c "E")
  end.

(** A digit from 1 to 9. *)
Definition is_digit19 (c : ascii) : bool := Json.is_digit c && negb (Ascii.eqb c "0").

(** The first character of the text of a value. *)
Definition starts_value (c : ascii) : bool :=
  Json.is_digit c || Ascii.eqb c "-" || Ascii.eqb c Json.dquote || Ascii.eqb c "["
  || Ascii.eqb c "{" || Ascii.eqb c "n" || Ascii.eqb c "t" || Ascii.eqb c "f".

Section With_indent.

Variable indent : option nat.

(** The text of [v] is read back as [v], whatever follows it. *)
Definition reads_back (v : pyval) : Prop :=
  forall level fuel rest,
    (String.length (Json.iterencode indent level v) <= fuel)%nat ->
    ends_number rest = true ->
    Json.scan_once fuel (Json.iterencode indent level v ++ rest) = Some (v, rest).

(** The text of a pair of a dict, and the same after its opening quote. *)
Definition encode_pair (level : nat) (kv : string * pyval) : string :=
  Json.encode_basestring (fst kv) ++ Json.key_separator
  ++ Json.iterencode indent level (snd kv).

Definition pair_tail (level : nat) (kv : string * pyval) : string :=
  Json.escape (fst kv)
  ++ String Json.dquote
       (String ":" (String " " (Json.iterencode indent level (snd kv)))).

End With_indent.

(** ** The scanner, one call deep

    The bodies of [scan_once], [array_items] and [object_items], with the
    functions they call as arguments. *)

Definition scan_step
  (arr : string -> option (list pyval * string))
  (obj : string -> option (list (string * pyval) * string))
  (s : string) : option (pyval * string) :=
  match s with
  | EmptyString => None
  | String c rest =>
    if Ascii.eqb c Json.dquote then
      match Json.scanstring rest with
      | Some (str, r) => Some (PStr str, r)
      | None => None
      end
    else if Ascii.eqb c "{" then
      match Json.skip_ws rest with
      | String c1 r1 =>
        if Ascii.eqb c1 "}" then Some (PDict [], r1)
        else if Ascii.eqb c1 Json.dquote then
          match obj r1 with
          | Some (pairs, r) => Some (PDict (Json.dict_of_pairs pairs), r)
          | None => None
          end
        else None
      | EmptyString => None
      end
    else if Ascii.eqb c "[" then
      match Json.skip_ws rest with
      | String c1 r1 =>
        if Ascii.eqb c1 "]" then Some (PList [], r1)
        else
          match arr (String c1 r1) with
          | Some (values, r) => Some (PList values, r)
          | None => None
          end
      | EmptyString => None
      end
    else if Ascii.eqb c "n" && String.prefix "null" s then Json.literal "null" PNone s
    else if Ascii.eqb c "t" && String.prefix "true" s then
      Json.literal "true" (PBool true) s
    else if Ascii.eqb c "f" && String.prefix "false" s then
      Json.literal "false" (PBool false) s
    else
      match Json.match_number s with
      | Some res => Some res
      | None =>
        if Ascii.eqb c "N" && String.prefix "NaN" s then
          Json.literal "NaN" (PFloat "NaN") s
        else if Ascii.eqb c "I" && String.prefix "Infinity" s then
          Json.literal "Infinity" (PFloat "Infinity") s
        else if Ascii.eqb c "-" && String.prefix "-Infinity" s then
          Json.literal "-Infinity" (PFloat "-Infinity") s
        else None
      end
  end.

Definition array_step
  (scan : string -> option (pyval * string))
  (arr : string -> option (list pyval * string))
  (s : string) : option (list pyval * string) :=
  match scan s with
  | None => None
  | Some (value, r) =>
    match Json.skip_ws r with
    | String c r1 =>
      if Ascii.eqb c "]" then Some ([value], r1)
      else if Ascii.eqb c "," then
        match arr (Json.skip_ws r1) with
        | Some (values, r2) => Some (value :: values, r2)
        | None => None
        end
      else None
    | EmptyString => None
    end
  end.

Definition object_step
  (scan : string -> option (pyval * string))
  (obj : string -> option (list (string * pyval) * string))
  (s : string) : option (list (string * pyval) * string) :=
  match Json.scanstring s with
  | None => None
  | Some (key, r) =>
    match Json.skip_ws r with
    | String c r1 =>
      if Ascii.eqb c ":" then
        match scan (Json.skip_ws r1) with
        | None => None
        | Some (value, r2) =>
          match Json.skip_ws r2 with
          | String c2 r3 =>
            if Ascii.eqb c2 "}" then Some ([(key, value)], r3)
            else if Ascii.eqb c2 "," then
              match Json.skip_ws r3 with
              | String c3 r4 =>
                if Ascii.eqb c3 Json.dquote then
                  match obj r4 with
                  | Some (pairs, r5) => Some ((key, value) :: pairs, r5)
                  | None => None
                  end
                else None
              | EmptyString => None
              end
            else None
          | EmptyString => None
          end
        end
      else None
    | EmptyString => None
    end
  end.

(** A call that consumed less than the whole consumption can be replaced. *)
Definition lifts {A : Type} (total_in total_out : string)
  (f f' : string -> option (A * string)) : Prop :=
  forall s1 x r1,
    f s1 = Some (x, r1) ->
    (String.length r1 < String.length s1)%nat /\
    ((String.length s1 + String.length total_out < String.length total_in + String.length r1)%nat -> f' s1 = Some (x, r1)).

(** A parse keeps its result with any fuel that covers what it consumed. *)
Definition settled {A : Type} (f : nat -> string -> option (A * string))
  (fuel : nat) : Prop :=
  forall s x r,
    f fuel s = Some (x, r) ->
    (String.length r < String.length s)%nat /\
    forall fuel', (String.length s - String.length r <= fuel')%nat -> f fuel' s = Some (x, r).

(** ** Traces and replies *)

(** The events that tell the user something went wrong. *)
Definition is_signal (ev : event) : bool :=
  match ev with
  | St_warning _ | St_error _ _ => true
  | _ => false
  end.

Definition silent (tr : list event) : bool :=
  forallb (fun ev => negb (is_signal ev)) tr.

Definition is_post (ev : event) : bool :=
  match ev with
  | Post _ => true
  | _ => false
  end.

(** [key in v] for a value read from JSON. *)
Definition has_key (v : pyval) (key : string) : bool :=
  match v with
  | PDict d =>
    match lookup d key with
    | Some _ => true
    | None => false
    end
  | _ => false
  end.

Definition success_status (st : Z) : Prop := 200 <= st < 300.

(** The sentence as written: any body that is valid JSON and has no [value]
    key gives the empty list and no warning or error. *)
Definition body_without_value_is_silent : Prop :=
  forall cfg net query top st body data,
    search_configured cfg = true ->
    net (search_request cfg query top) = Response st body ->
    success_status st ->
    Json.loads body = Some data ->
    has_key data "value" = false ->
    snd (azure_search cfg net query top) = inr (PList []) /\
    silent (fst (azure_search cfg net query top)) = true.

Definition sample_settings : settings :=
  {| SEARCH_ENDPOINT := "https://search.example";
     SEARCH_KEY := "key";
     SEARCH_INDEX := "kids";
     AOAI_ENDPOINT := "https://openai.example";
     AOAI_KEY := "key";
     AOAI_DEPLOYMENT := "chat" |}.

(** [d.get(key, dflt)] on the pairs of a dict. *)
Definition get_or (d : list (string * pyval)) (key : string) (dflt : pyval)
  : pyval :=
  match lookup d key with
  | Some x => x
  | None => dflt
  end.

(** The coercion in the words of the specification: [r] is the content record
    of the match [m] when its title is that of [m], or the id of [m] when [m]
    has no title, and its phrases and content are those of [m], or empty. *)
Definition coerced (m r : pyval) : Prop :=
  match m with
  | PDict fields =>
    getitem_key r "title"
    = inr (match lookup fields "title" with
           | Some t => t
           | None => get_or fields "id" PNone
           end) /\
    getitem_key r "phrases" = inr (get_or fields "phrases" (PList [])) /\
    getitem_key r "content" = inr (get_or fields "content" (PStr ""))
  | _ => False
  end.

(** The sentence as written: what the search returns on success is the list
    of the coerced matches. *)
Definition search_returns_content_records : Prop :=
  forall cfg net query top st body d matches,
    search_configured cfg = true ->
    net (search_request cfg query top) = Response st body ->
    success_status st ->
    Json.loads body = Some (PDict d) ->
    lookup d "value" = Some (PList matches) ->
    exists records,
      snd (azure_search cfg net query top) = inr (PList records) /\
      Forall2 coerced matches records.

(** A reply with one match that has an id and nothing else. *)
Definition one_untitled_match : string :=
  Json.dumps None (PDict [("value", PList [PDict [("id", PStr "7")]])]).

(** What [[:600]] accepts: a string or a list, after the empty string has
    replaced a value that counts as false. *)
Definition sliceable (content : pyval) : bool :=
  match py_or content (PStr "") with
  | PStr _ | PList _ => true
  | _ => false
  end.

Definition write_line (t : string) : event := St_write [PStr ("- " ++ t)].

(** What was shown has no mission line: wherever the heading of the missions
    is shown, what is shown next, if anything, is the heading of the parent
    tips. *)
Fixpoint no_mission_line (shown : list event) : bool :=
  match shown with
  | [] => true
  | St_markdown heading :: rest =>
    (if String.eqb heading "**Missions (3)**" then
       match rest with
       | [] => true
       | St_markdown next :: _ => String.eqb next "**Parent Tips**"
       | _ => false
       end
     else true)
    && no_mission_line rest
  | _ :: rest => no_mission_line rest
  end.




End Notions.

Import Notions.

(** * Notions for the further properties *)

Module MoreNotions.

(** The requests a run posts. *)
Definition count_posts (tr : list event) : nat :=
  List.length (filter is_post tr).

Definition is_page_post (ev : page_event) : bool :=
  match ev with
  | Ui e => is_post e
  | _ => false
  end.

Definition count_page_posts (tr : list page_event) : nat :=
  List.length (filter is_page_post tr).

(** Why a reply gives no parsed body: no reply at all, an error status, or a
    body that is not JSON. *)
Definition reply_error (r : http_reply) : option exn :=
  match r with
  | NoReply => Some RequestException
  | Response st body =>
    if (400 <=? st) && (st <? 600) then Some (HTTPError st)
    else
      match Json.loads body with
      | Some _ => None
      | None => Some JSONDecodeError
      end
  end.

Definition is_dict (v : pyval) : bool :=
  match v with
  | PDict _ => true
  | _ => false
  end.

Definition is_float (v : pyval) : bool :=
  match v with
  | PFloat _ => true
  | _ => false
  end.

(** The content of the first choice cannot be used: it is missing, or is not
    text, or is text that is not JSON. *)
Definition content_error (data : pyval) : option exn :=
  match message_content data with
  | inl e => Some e
  | inr (PStr text) =>
    match Json.loads text with
    | Some _ => None
    | None => Some JSONDecodeError
    end
  | inr _ => Some TypeError
  end.

(** A completion without any choice. *)
Definition no_choices : string :=
  Json.dumps None (PDict [("choices", PList [])]).

(** A document the prompt can carry exactly: a plain dict whose content can
    be cut. *)
Definition plain_doc (d : pyval) : bool :=
  match d with
  | PDict fields => plain d && sliceable (get_or fields "content" (PStr ""))
  | _ => false
  end.

(** The four events of one activity on the plan tab. *)
Definition activity_block (act : Activity) : list event :=
  [St_container;
   St_markdown ("**" ++ day act ++ "** — " ++ item act ++ " (" ++ type act ++ ")");
   St_write [PStr "키 프레이즈:"; PStr (Json.join ", " (focus_phrases act))];
   St_write [PStr "미션:"; PStr (Json.join ", " (missions act))]].

(** Every character of [s] passes [p]. *)
Fixpoint all_chars (p : ascii -> bool) (s : string) : bool :=
  match s with
  | EmptyString => true
  | String c rest => p c && all_chars p rest
  end.

(** The characters of a quoted text. *)
Definition url_char (c : ascii) : bool :=
  Urllib.always_safe c || Ascii.eqb c "+" || Ascii.eqb c "%".

(** What undoes [quote_plus]: [+] is a space and [%XX] is a byte. *)
Fixpoint unquote_plus (s : string) : string :=
  match s with
  | EmptyString => EmptyString
  | String c rest =>
    if Ascii.eqb c "+" then String " " (unquote_plus rest)
    else if Ascii.eqb c "%" then
      match rest with
      | String h (String l rest') =>
        match Json.hex_val h, Json.hex_val l with
        | Some x, Some y => String (ascii_of_N (16 * x + y)) (unquote_plus rest')
        | _, _ => String c (unquote_plus rest)
        end
      | _ => String c (unquote_plus rest)
      end
    else String c (unquote_plus rest)
  end.

End MoreNotions.

Import MoreNotions.

(** * Properties *)

(** ** The JSON encoder and decoder *)

Module JsonFacts.

Import Json.

(** *** Strings *)

Lemma app_assoc_s (a b c : string) : (a ++ b) ++ c = a ++ (b ++ c).
Proof. induction a as [| x a IH]; simpl; [reflexivity | now rewrite IH]. Qed.

Lemma app_nil_s (a : string) : a ++ "" = a.
Proof. induction a as [| x a IH]; simpl; [reflexivity | now rewrite IH]. Qed.

Lemma length_app_s (a b : string) :
  String.length (a ++ b) = (String.length a + String.length b)%nat.
Proof. induction a as [| x a IH]; simpl; [reflexivity | now rewrite IH]. Qed.

(** One escaped character is read back as that character. *)
Lemma scanstring_escape_char (c : ascii) (t : string) :
  scanstring (escape_char c ++ t) = prepend (String c "") (scanstring t).
Proof.
  destruct c as [[] [] [] [] [] [] [] []]; reflexivity.
Qed.

(** An escaped string and its closing quote are read back as the string. *)
Lemma scanstring_escape (s rest : string) :
  scanstring (escape s ++ String dquote rest) = Some (s, rest).
Proof.
  induction s as [| c s IH]; [reflexivity |].
  cbn [escape]. rewrite app_assoc_s, scanstring_escape_char, IH. reflexivity.
Qed.

(** *** Whitespace *)

Lemma skip_ws_app (w s : string) :
  all_ws w = true -> skip_ws (w ++ s) = skip_ws s.
Proof.
  induction w as [| c w IH]; intros Hw; [reflexivity |].
  cbn in Hw. apply andb_true_iff in Hw as [Hc Hw].
  cbn [append skip_ws]. rewrite Hc. auto.
Qed.

Lemma skip_ws_stays (c : ascii) (s : string) :
  is_ws c = false -> skip_ws (String c s) = String c s.
Proof. intros H. cbn [skip_ws]. now rewrite H. Qed.

Lemma all_ws_spaces (n : nat) : all_ws (spaces n) = true.
Proof. induction n; [reflexivity | exact IHn]. Qed.

Lemma all_ws_newline_indent ind lvl : all_ws (newline_indent ind lvl) = true.
Proof.
  destruct ind as [n |]; [| reflexivity].
  cbn [newline_indent all_ws]. now rewrite all_ws_spaces.
Qed.

Lemma separator_shape ind lvl :
  exists w, separator ind lvl = String "," w /\ all_ws w = true.
Proof.
  unfold separator, item_separator. destruct ind as [n |].
  - exists (newline_indent (Some n) lvl). split; [reflexivity |].
    apply all_ws_newline_indent.
  - exists " ". split; reflexivity.
Qed.

(** *** Numbers *)

Lemma ends_number_no_digit rest :
  ends_number rest = true ->
  match rest with String c _ => is_digit c = false | EmptyString => True end.
Proof.
  destruct rest as [| c r]; [easy |]. cbn [ends_number].
  destruct (is_digit c); [discriminate | reflexivity].
Qed.

Lemma span_digits_uint (d : Decimal.uint) (rest : string) :
  ends_number rest = true ->
  span_digits (NilEmpty.string_of_uint d ++ rest) = (NilEmpty.string_of_uint d, rest).
Proof.
  intros Hrest. induction d; cbn [NilEmpty.string_of_uint append span_digits];
    try (change (is_digit "0") with true; cbv iota); 
    try (rewrite IHd; reflexivity).
  apply ends_number_no_digit in Hrest.
  destruct rest as [| c r]; [reflexivity |]. cbn [span_digits]. now rewrite Hrest.
Qed.

(** The value of the digits the library writes for a number. *)
Lemma digits_value_acc (d : Decimal.uint) (acc : positive) :
  digits_value (Z.pos acc) (NilEmpty.string_of_uint d) = Z.pos (Pos.of_uint_acc d acc).
Proof.
  revert acc. induction d; intros acc;
    cbn [NilEmpty.string_of_uint digits_value Pos.of_uint_acc];
    [reflexivity | rewrite <- IHd; f_equal; vm_compute (Z.of_N _); lia ..].
Qed.

Lemma digits_value_uint (d : Decimal.uint) :
  digits_value 0 (NilEmpty.string_of_uint d) = Z.of_N (Pos.of_uint d).
Proof.
  induction d; cbn [NilEmpty.string_of_uint digits_value Pos.of_uint];
    [reflexivity | exact IHd | apply (digits_value_acc d) ..].
Qed.

Lemma digits_value_pos (p : positive) :
  digits_value 0 (NilEmpty.string_of_uint (Pos.to_uint p)) = Z.pos p.
Proof.
  now rewrite digits_value_uint, DecimalPos.Unsigned.of_to.
Qed.

(** The digits of a positive number do not start with a zero. *)
Lemma to_uint_head (p : positive) :
  exists c u,
    Pos.to_uint p <> Decimal.Nil /\
    NilEmpty.string_of_uint (Pos.to_uint p) = String c (NilEmpty.string_of_uint u) /\
    is_digit19 c = true.
Proof.
  assert (Hnorm : Decimal.unorm (Pos.to_uint p) = Pos.to_uint p).
  { rewrite <- (DecimalPos.Unsigned.to_of (Pos.to_uint p)).
    now rewrite DecimalPos.Unsigned.of_to. }
  pose proof (Unsigned.to_uint_nonzero p) as Hnz.
  pose proof (Unsigned.to_uint_nonnil p) as Hnn.
  destruct (Pos.to_uint p) as [| u | u | u | u | u | u | u | u | u | u] eqn:E;
    try (eexists; exists u; split; [discriminate | split; reflexivity]).
  - congruence.
  - exfalso. rewrite unorm_D0 in Hnorm.
    destruct u as [| u | u | u | u | u | u | u | u | u | u]; [congruence | ..];
      match type of Hnorm with
      | Decimal.unorm ?x = _ =>
        assert (Hx : x <> Decimal.Nil) by discriminate;
        pose proof (nb_digits_unorm x Hx) as Hle
      end;
      rewrite Hnorm in Hle; cbn [Decimal.nb_digits] in Hle; lia.
Qed.

Lemma digit19_cases (c : ascii) :
  is_digit19 c = true ->
  c = "1"%char \/ c = "2"%char \/ c = "3"%char \/ c = "4"%char \/ c = "5"%char \/
  c = "6"%char \/ c = "7"%char \/ c = "8"%char \/ c = "9"%char.
Proof.
  destruct c as [[] [] [] [] [] [] [] []]; intros H; try discriminate H; tauto.
Qed.

Lemma match_frac_none (rest : string) :
  ends_number rest = true -> match_frac rest = (EmptyString, rest).
Proof.
  destruct rest as [| c r]; [reflexivity |]. cbn [ends_number]. intros H.
  apply negb_true_iff in H. rewrite !orb_false_iff in H.
  destruct H as [[[_ Hdot] _] _].
  destruct c as [[] [] [] [] [] [] [] []]; try discriminate Hdot; reflexivity.
Qed.

Lemma match_exp_none (rest : string) :
  ends_number rest = true -> match_exp rest = (EmptyString, rest).
Proof.
  destruct rest as [| c r]; [reflexivity |]. cbn [ends_number]. intros H.
  apply negb_true_iff in H. rewrite !orb_false_iff in H.
  destruct H as [[[_ _] He] HE].
  unfold match_exp. now rewrite He, HE.
Qed.

(** A number written with digits that start with a non-zero one, after an
    optional sign, is matched whole and read back. *)
Lemma match_number_digits (c : ascii) (u : Decimal.uint) (rest : string) :
  is_digit19 c = true -> ends_number rest = true ->
  match_number (String c (NilEmpty.string_of_uint u) ++ rest)
  = Some (PInt (digits_value 0 (String c (NilEmpty.string_of_uint u))), rest) /\
  match_number (String "-" (String c (NilEmpty.string_of_uint u)) ++ rest)
  = Some (PInt (- digits_value 0 (String c (NilEmpty.string_of_uint u))), rest).
Proof.
  intros Hc Hrest. unfold match_number, match_integer.
  apply digit19_cases in Hc.
  destruct Hc as [-> | [-> | [-> | [-> | [-> | [-> | [-> | [-> | ->]]]]]]]];
    cbn [append]; cbv iota beta;
    change (Ascii.eqb _ "0") with false; cbv iota;
    change (is_digit _) with true; cbv iota;
    rewrite (span_digits_uint u rest Hrest);
    rewrite (match_frac_none rest Hrest), (match_exp_none rest Hrest);
    split; reflexivity.
Qed.

(** [str(z)] is matched whole and read back as [z]. *)
Lemma match_number_int (z : Z) (rest : string) :
  ends_number rest = true ->
  match_number (str_of_int z ++ rest) = Some (PInt z, rest).
Proof.
  intros Hrest. unfold str_of_int.
  destruct z as [| p | p]; cbn [Z.to_int NilZero.string_of_int].
  - unfold match_number. cbn.
    rewrite (match_frac_none rest Hrest), (match_exp_none rest Hrest). reflexivity.
  - destruct (to_uint_head p) as (c & u & Hnn & E & Hc).
    assert (Hs : NilZero.string_of_uint (Pos.to_uint p)
                 = NilEmpty.string_of_uint (Pos.to_uint p))
      by (destruct (Pos.to_uint p); [congruence | reflexivity ..]).
    rewrite Hs, E.
    destruct (match_number_digits c u rest Hc Hrest) as [-> _].
    rewrite <- E, digits_value_pos. reflexivity.
  - destruct (to_uint_head p) as (c & u & Hnn & E & Hc).
    assert (Hs : NilZero.string_of_uint (Pos.to_uint p)
                 = NilEmpty.string_of_uint (Pos.to_uint p))
      by (destruct (Pos.to_uint p); [congruence | reflexivity ..]).
    rewrite Hs, E.
    destruct (match_number_digits c u rest Hc Hrest) as [_ ->].
    rewrite <- E, digits_value_pos. reflexivity.
Qed.

Lemma str_of_int_head (z : Z) :
  exists c tl, str_of_int z = String c tl /\ (is_digit c || Ascii.eqb c "-") = true.
Proof.
  unfold str_of_int. destruct z as [| p | p]; cbn [Z.to_int NilZero.string_of_int].
  - eexists; eexists; split; reflexivity.
  - destruct (to_uint_head p) as (c & u & Hnn & E & Hc).
    exists c, (NilEmpty.string_of_uint u). split.
    + rewrite <- E. destruct (Pos.to_uint p); [congruence | reflexivity ..].
    + unfold is_digit19 in Hc. apply andb_true_iff in Hc as [-> _]. reflexivity.
  - eexists; eexists; split; reflexivity.
Qed.

Lemma scan_once_number (fuel : nat) (c : ascii) (tl : string) :
  (is_digit c || Ascii.eqb c "-") = true ->
  scan_once (S fuel) (String c tl)
  = match match_number (String c tl) with
    | Some res => Some res
    | None =>
      if Ascii.eqb c "-" && String.prefix "-Infinity" (String c tl) then
        literal "-Infinity" (PFloat "-Infinity") (String c tl)
      else None
    end.
Proof.
  intros Hc.
  destruct c as [[] [] [] [] [] [] [] []]; try discriminate Hc; reflexivity.
Qed.

Lemma scan_once_int (fuel : nat) (z : Z) (rest : string) :
  ends_number rest = true ->
  scan_once (S fuel) (str_of_int z ++ rest) = Some (PInt z, rest).
Proof.
  intros Hrest. pose proof (match_number_int z rest Hrest) as Hm.
  destruct (str_of_int_head z) as (c & tl & E & Hc).
  rewrite E in Hm |- *. cbn [append] in Hm |- *.
  now rewrite (scan_once_number fuel c _ Hc), Hm.
Qed.

(** *** Dicts *)

Lemma distinct_NoDup (ks : list string) : distinct ks = true -> NoDup ks.
Proof.
  induction ks as [| k ks IH]; intros H; [constructor |].
  cbn [distinct] in H. apply andb_true_iff in H as [Hk Hks].
  constructor; [| auto].
  intros Hin. apply negb_true_iff in Hk.
  assert (existsb (String.eqb k) ks = true) as Hex
    by (apply existsb_exists; exists k; split; [exact Hin | apply String.eqb_refl]).
  congruence.
Qed.

Lemma dict_set_fresh (d : list (string * pyval)) (k : string) (v : pyval) :
  ~ In k (map fst d) -> dict_set d k v = (d ++ [(k, v)])%list.
Proof.
  induction d as [| [k' v'] d IH]; intros Hk; [reflexivity |].
  cbn [dict_set app]. destruct (String.eqb_spec k' k) as [-> | _].
  - exfalso. apply Hk. now left.
  - rewrite IH; [reflexivity |]. intros Hin. apply Hk. now right.
Qed.

Lemma fold_dict_set_fresh (pairs acc : list (string * pyval)) :
  NoDup (map fst acc ++ map fst pairs) ->
  fold_left (fun d kv => dict_set d (fst kv) (snd kv)) pairs acc
  = (acc ++ pairs)%list.
Proof.
  revert acc. induction pairs as [| [k v] pairs IH]; intros acc Hnd.
  - cbn. now rewrite List.app_nil_r.
  - cbn [fold_left fst snd map] in *.
    rewrite dict_set_fresh.
    + rewrite IH.
      * now rewrite <- List.app_assoc.
      * rewrite List.map_app. cbn [map fst]. now rewrite <- List.app_assoc.
    + apply NoDup_remove_2 in Hnd. intros Hin. apply Hnd.
      apply in_or_app. now left.
Qed.

Lemma dict_of_pairs_distinct (pairs : list (string * pyval)) :
  distinct (map fst pairs) = true -> dict_of_pairs pairs = pairs.
Proof.
  intros H. unfold dict_of_pairs.
  now rewrite fold_dict_set_fresh by (apply distinct_NoDup; exact H).
Qed.

(** *** The scanner, one step at a time *)

Lemma starts_value_facts (c : ascii) :
  starts_value c = true ->
  is_ws c = false /\ Ascii.eqb c "]" = false /\ Ascii.eqb c "}" = false /\
  Ascii.eqb c "239" = false.
Proof.
  destruct c as [[] [] [] [] [] [] [] []]; intros H; try discriminate H;
    repeat split; reflexivity.
Qed.

Lemma ends_number_after_ws (w : string) (c : ascii) (r : string) :
  all_ws w = true -> ends_number (String c r) = true ->
  ends_number (w ++ String c r) = true.
Proof.
  destruct w as [| x w]; intros Hw Hc; [exact Hc |].
  cbn [all_ws] in Hw. apply andb_true_iff in Hw as [Hx _].
  cbn [append ends_number].
  destruct x as [[] [] [] [] [] [] [] []]; try discriminate Hx; reflexivity.
Qed.

Lemma join_cons2 (sep p q : string) (r : list string) :
  join sep (p :: q :: r) = p ++ sep ++ join sep (q :: r).
Proof. reflexivity. Qed.

Lemma join_head (sep : string) (c : ascii) (tl : string) (r : list string) :
  exists tl', join sep (String c tl :: r) = String c tl'.
Proof.
  destruct r as [| q r]; [now exists tl |].
  rewrite join_cons2. cbn [append]. eauto.
Qed.

Lemma array_items_eq (fuel : nat) (s : string) :
  array_items (S fuel) s
  = match scan_once fuel s with
    | None => None
    | Some (value, r) =>
      match skip_ws r with
      | String c r1 =>
        if Ascii.eqb c "]" then Some ([value], r1)
        else if Ascii.eqb c "," then
          match array_items fuel (skip_ws r1) with
          | Some (values, r2) => Some (value :: values, r2)
          | None => None
          end
        else None
      | EmptyString => None
      end
    end.
Proof. reflexivity. Qed.

Lemma object_items_eq (fuel : nat) (s : string) :
  object_items (S fuel) s
  = match scanstring s with
    | None => None
    | Some (key, r) =>
      match skip_ws r with
      | String c r1 =>
        if Ascii.eqb c ":" then
          match scan_once fuel (skip_ws r1) with
          | None => None
          | Some (value, r2) =>
            match skip_ws r2 with
            | String c2 r3 =>
              if Ascii.eqb c2 "}" then Some ([(key, value)], r3)
              else if Ascii.eqb c2 "," then
                match skip_ws r3 with
                | String c3 r4 =>
                  if Ascii.eqb c3 dquote then
                    match object_items fuel r4 with
                    | Some (pairs, r5) => Some ((key, value) :: pairs, r5)
                    | None => None
                    end
                  else None
                | EmptyString => None
                end
              else None
            | EmptyString => None
            end
          end
        else None
      | EmptyString => None
      end
    end.
Proof. reflexivity. Qed.

Lemma scan_once_open_array (fuel : nat) (w : string) (c : ascii) (tl : string) :
  all_ws w = true -> starts_value c = true ->
  scan_once (S fuel) (String "[" (w ++ String c tl))
  = match array_items fuel (String c tl) with
    | Some (values, r) => Some (PList values, r)
    | None => None
    end.
Proof.
  intros Hw Hc. apply starts_value_facts in Hc as (Hws & Hclose & _ & _).
  cbn [scan_once]. change (Ascii.eqb "[" dquote) with false.
  change (Ascii.eqb "[" "{") with false. change (Ascii.eqb "[" "[") with true.
  cbv iota. rewrite (skip_ws_app w _ Hw), (skip_ws_stays c tl Hws), Hclose.
  reflexivity.
Qed.

Lemma scan_once_open_object (fuel : nat) (w tl : string) :
  all_ws w = true ->
  scan_once (S fuel) (String "{" (w ++ String dquote tl))
  = match object_items fuel tl with
    | Some (pairs, r) => Some (PDict (dict_of_pairs pairs), r)
    | None => None
    end.
Proof.
  intros Hw.
  cbn [scan_once]. change (Ascii.eqb "{" dquote) with false.
  change (Ascii.eqb "{" "{") with true.
  cbv iota. rewrite (skip_ws_app w _ Hw), (skip_ws_stays dquote tl eq_refl).
  reflexivity.
Qed.

Lemma scan_once_string (fuel : nat) (s rest : string) :
  scan_once (S fuel) (encode_basestring s ++ rest) = Some (PStr s, rest).
Proof.
  unfold encode_basestring. cbn [append scan_once].
  change (Ascii.eqb dquote dquote) with true. cbv iota.
  rewrite app_assoc_s. cbn [append]. now rewrite scanstring_escape.
Qed.

(** *** Every plain value is read back from its text *)

(** Nest the appends of the goal to the right. *)
Ltac norm_app := repeat (progress (rewrite ?app_assoc_s; cbn [append])).

Section Round_trip.

Variable indent : option nat.

Local Abbreviation reads_back := (Notions.reads_back indent).
Local Abbreviation encode_pair := (Notions.encode_pair indent).
Local Abbreviation pair_tail := (Notions.pair_tail indent).

Lemma iterencode_head (level : nat) (v : pyval) :
  plain v = true ->
  exists c tl, iterencode indent level v = String c tl /\ starts_value c = true.
Proof.
  destruct v as [| [] | n | lexeme | s | [| x items] | [| kv pairs]]; intros Hp;
    try discriminate Hp;
    try (eexists; eexists; split; reflexivity).
  destruct (str_of_int_head n) as (c & tl & E & Hc).
  exists c, tl. split; [exact E |].
  unfold starts_value. apply orb_true_iff in Hc as [-> | ->];
    rewrite ?orb_true_r; reflexivity.
Qed.

(** The loop of [JSONArray] reads the joined elements back, up to the closing
    bracket. *)
Lemma array_items_elements (level : nat) (w cw : string) (items : list pyval) :
  items <> [] ->
  Forall (fun x => plain x = true /\ reads_back x) items ->
  all_ws w = true -> all_ws cw = true ->
  forall fuel rest,
    (String.length (join (String "," w) (map (iterencode indent level) items))
     < fuel)%nat ->
    array_items fuel
      (join (String "," w) (map (iterencode indent level) items)
       ++ cw ++ String "]" rest)
    = Some (items, rest).
Proof.
  intros Hne Hall Hw Hcw.
  induction items as [| x items IH]; [congruence |].
  inversion Hall as [| ? ? [Hpx Hx] Hall']; subst.
  intros fuel rest Hlen. destruct fuel as [| fuel]; [lia |].
  rewrite array_items_eq.
  destruct items as [| y items].
  - cbn [map join] in *.
    rewrite (Hx level fuel (cw ++ String "]" rest));
      [| lia | now apply ends_number_after_ws].
    rewrite (skip_ws_app cw _ Hcw), (skip_ws_stays "]" rest eq_refl).
    reflexivity.
  - cbn [map] in *. rewrite join_cons2 in *.
    rewrite length_app_s in Hlen. cbn [append String.length] in Hlen.
    rewrite length_app_s in Hlen.
    rewrite ?app_assoc_s. cbn [append]. rewrite ?app_assoc_s.
    rewrite (Hx level fuel); [| lia | reflexivity].
    rewrite (skip_ws_stays "," _ eq_refl).
    change (Ascii.eqb "," "]") with false. change (Ascii.eqb "," ",") with true.
    cbv iota.
    rewrite (skip_ws_app w _ Hw).
    inversion Hall' as [| ? ? [Hpy _] _]; subst.
    destruct (iterencode_head level y Hpy) as (c & tl & E & Hc).
    destruct (join_head (String "," w) c tl (map (iterencode indent level) items))
      as (tl' & Ej).
    rewrite <- E in Ej.
    apply starts_value_facts in Hc as (Hws & _).
    assert (Hskip : forall r,
              skip_ws (join (String "," w)
                         (iterencode indent level y
                          :: map (iterencode indent level) items) ++ r)
              = join (String "," w)
                  (iterencode indent level y
                   :: map (iterencode indent level) items) ++ r).
    { intros r. rewrite Ej. cbn [append]. now apply skip_ws_stays. }
    rewrite Hskip.
    rewrite (IH ltac:(discriminate) Hall' fuel rest ltac:(lia)).
    reflexivity.
Qed.

Lemma encode_pair_eq (level : nat) (kv : string * pyval) :
  encode_pair level kv = String dquote (pair_tail level kv).
Proof.
  unfold encode_pair, pair_tail, encode_basestring, key_separator.
  cbn [append]. now rewrite app_assoc_s.
Qed.

(** The loop of [JSONObject] reads the joined pairs back, up to the closing
    brace. *)
Lemma object_items_pairs (level : nat) (w cw : string)
  (pairs : list (string * pyval)) :
  pairs <> [] ->
  Forall (fun kv => plain (snd kv) = true /\ reads_back (snd kv)) pairs ->
  all_ws w = true -> all_ws cw = true ->
  forall fuel rest tl,
    join (String "," w) (map (encode_pair level) pairs) = String dquote tl ->
    (String.length tl < fuel)%nat ->
    object_items fuel (tl ++ cw ++ String "}" rest) = Some (pairs, rest).
Proof.
  intros Hne Hall Hw Hcw.
  induction pairs as [| [k v] pairs IH]; [congruence |].
  inversion Hall as [| ? ? [Hpv Hv] Hall']; subst. cbn [snd] in Hpv, Hv.
  intros fuel rest tl Hjoin Hlen. destruct fuel as [| fuel]; [lia |].
  rewrite object_items_eq.
  destruct (iterencode_head level v Hpv) as (c & vtl & Ev & Hc).
  apply starts_value_facts in Hc as (Hws & _).
  destruct pairs as [| kv2 pairs].
  - cbn [map join] in Hjoin. rewrite encode_pair_eq in Hjoin.
    injection Hjoin as <-. unfold pair_tail in *. cbn [fst snd] in *.
    rewrite length_app_s in Hlen. cbn [String.length] in Hlen.
    rewrite app_assoc_s. cbn [append]. rewrite scanstring_escape.
    rewrite (skip_ws_stays ":" _ eq_refl).
    change (Ascii.eqb ":" ":") with true. cbv iota.
    assert (Hskip : forall r,
              skip_ws (String " " (iterencode indent level v ++ r))
              = iterencode indent level v ++ r).
    { intros r. cbn [skip_ws]. change (is_ws " ") with true. cbv iota.
      rewrite Ev. cbn [append]. now apply skip_ws_stays. }
    rewrite Hskip.
    rewrite (Hv level fuel (cw ++ String "}" rest));
      [| lia | now apply ends_number_after_ws].
    rewrite (skip_ws_app cw _ Hcw), (skip_ws_stays "}" rest eq_refl).
    reflexivity.
  - cbn [map] in Hjoin. rewrite join_cons2 in Hjoin.
    rewrite (encode_pair_eq level (k, v)) in Hjoin.
    destruct (join_head (String "," w) dquote (pair_tail level kv2)
                (map (encode_pair level) pairs)) as (tl2 & Ej).
    rewrite <- encode_pair_eq in Ej.
    change (encode_pair level kv2 :: map (encode_pair level) pairs)
      with (map (encode_pair level) (kv2 :: pairs)) in *.
    rewrite Ej in Hjoin. cbn [append] in Hjoin.
    injection Hjoin as <-. unfold pair_tail in *. cbn [fst snd] in *.
    rewrite !length_app_s in Hlen. cbn [String.length] in Hlen.
    rewrite !length_app_s in Hlen. cbn [String.length] in Hlen.
    rewrite ?app_assoc_s. cbn [append]. rewrite scanstring_escape.
    rewrite (skip_ws_stays ":" _ eq_refl).
    change (Ascii.eqb ":" ":") with true. cbv iota.
    assert (Hskip : forall r,
              skip_ws (String " " (iterencode indent level v ++ r))
              = iterencode indent level v ++ r).
    { intros r. cbn [skip_ws]. change (is_ws " ") with true. cbv iota.
      rewrite Ev. cbn [append]. now apply skip_ws_stays. }
    rewrite ?app_assoc_s. cbn [append]. rewrite Hskip.
    rewrite (Hv level fuel); [| lia | reflexivity].
    rewrite (skip_ws_stays "," _ eq_refl).
    change (Ascii.eqb "," "}") with false. change (Ascii.eqb "," ",") with true.
    cbv iota.
    rewrite ?app_assoc_s. cbn [append].
    rewrite (skip_ws_app w _ Hw), (skip_ws_stays dquote _ eq_refl).
    change (Ascii.eqb dquote dquote) with true. cbv iota.
    rewrite (IH ltac:(discriminate) Hall' fuel rest tl2 Ej ltac:(lia)).
    reflexivity.
Qed.

Lemma iterencode_list (level : nat) (x : pyval) (items : list pyval) :
  iterencode indent level (PList (x :: items))
  = String "["
      (newline_indent indent (S level)
       ++ join (separator indent (S level))
            (map (iterencode indent (S level)) (x :: items))
       ++ newline_indent indent level ++ "]").
Proof. reflexivity. Qed.

Lemma iterencode_dict (level : nat) (kv : string * pyval)
  (pairs : list (string * pyval)) :
  iterencode indent level (PDict (kv :: pairs))
  = String "{"
      (newline_indent indent (S level)
       ++ join (separator indent (S level))
            (map (encode_pair (S level)) (kv :: pairs))
       ++ newline_indent indent level ++ "}").
Proof. reflexivity. Qed.

Lemma Forall_with_plain {A : Type} (f : A -> pyval) (Q : pyval -> Prop)
  (l : list A) :
  forallb (fun a => plain (f a)) l = true ->
  Forall (fun a => plain (f a) = true -> Q (f a)) l ->
  Forall (fun a => plain (f a) = true /\ Q (f a)) l.
Proof.
  intros Hp Hq. rewrite forallb_forall in Hp. rewrite Forall_forall in *.
  intros a Ha. split; [now apply Hp | apply Hq; [exact Ha | now apply Hp]].
Qed.

(** The scanner reads the text of a plain value back, at every nesting
    level, with fuel for the length of that text. *)
Lemma plain_reads_back (v : pyval) : plain v = true -> reads_back v.
Proof.
  induction v as [| b | n | lexeme | s | items IH | pairs IH]
    using pyval_nested_ind; intros Hp level fuel rest Hlen Hrest;
    try discriminate Hp.
  - destruct fuel as [| fuel]; [cbn in Hlen; lia |].
    destruct rest; reflexivity.
  - destruct fuel as [| fuel]; [destruct b; cbn in Hlen; lia |].
    destruct b, rest; reflexivity.
  - destruct fuel as [| fuel].
    + destruct (str_of_int_head n) as (c & tl & E & _).
      cbn [iterencode] in Hlen. rewrite E in Hlen. cbn in Hlen. lia.
    + now apply scan_once_int.
  - destruct fuel as [| fuel]; [cbn in Hlen; lia |].
    apply scan_once_string.
  - destruct items as [| x items].
    + destruct fuel as [| fuel]; [cbn in Hlen; lia | reflexivity].
    + rewrite iterencode_list in *.
      destruct fuel as [| fuel]; [cbn in Hlen; lia |].
      cbn [String.length] in Hlen. rewrite !length_app_s in Hlen.
      cbn [String.length] in Hlen. cbn [plain] in Hp.
      pose proof (Forall_with_plain (fun x => x) reads_back _ Hp IH) as Hall.
      destruct (separator_shape indent (S level)) as (w & Esep & Hw).
      rewrite Esep in *.
      assert (Hpx : plain x = true)
        by (cbn [forallb] in Hp; now apply andb_true_iff in Hp as [? _]).
      destruct (iterencode_head (S level) x Hpx) as (c & tl & E & Hc).
      destruct (join_head (String "," w) c tl
                  (map (iterencode indent (S level)) items)) as (tl' & Ej).
      rewrite <- E in Ej.
      change (iterencode indent (S level) x
              :: map (iterencode indent (S level)) items)
        with (map (iterencode indent (S level)) (x :: items)) in Ej.
      cbn [append]. rewrite ?app_assoc_s. cbn [append].
      pose proof (array_items_elements (S level) w
                    (newline_indent indent level) (x :: items)
                    ltac:(discriminate) Hall Hw
                    (all_ws_newline_indent indent level) fuel rest
                    ltac:(lia)) as Harr.
      rewrite Ej in Harr |- *. cbn [append] in Harr |- *.
      rewrite (scan_once_open_array fuel _ c _
                 (all_ws_newline_indent indent (S level)) Hc).
      now rewrite Harr.
  - destruct pairs as [| kv pairs].
    + destruct fuel as [| fuel]; [cbn in Hlen; lia | reflexivity].
    + rewrite iterencode_dict in *.
      destruct fuel as [| fuel]; [cbn in Hlen; lia |].
      cbn [String.length] in Hlen. rewrite !length_app_s in Hlen.
      cbn [String.length] in Hlen. cbn [plain] in Hp. apply andb_true_iff in Hp as [Hkeys Hp].
      pose proof (Forall_with_plain snd reads_back _ Hp IH) as Hall.
      destruct (separator_shape indent (S level)) as (w & Esep & Hw).
      rewrite Esep in *.
      destruct (join_head (String "," w) dquote (pair_tail (S level) kv)
                  (map (encode_pair (S level)) pairs)) as (tl & Ej).
      rewrite <- encode_pair_eq in Ej.
      change (encode_pair (S level) kv :: map (encode_pair (S level)) pairs)
        with (map (encode_pair (S level)) (kv :: pairs)) in Ej.
      rewrite Ej in Hlen |- *. cbn [String.length] in Hlen.
      norm_app.
      rewrite (scan_once_open_object fuel _ _
                 (all_ws_newline_indent indent (S level))).
      rewrite (object_items_pairs (S level) w (newline_indent indent level)
                 (kv :: pairs) ltac:(discriminate) Hall Hw
                 (all_ws_newline_indent indent level) fuel rest tl Ej
                 ltac:(lia)).
      now rewrite dict_of_pairs_distinct.
Qed.

(** [json.loads(json.dumps(v, ensure_ascii=False, indent=...))] is [v] for
    every plain value [v]. *)
Theorem loads_dumps (v : pyval) :
  plain v = true -> loads (dumps indent v) = Some v.
Proof.
  intros Hp. unfold loads, dumps.
  destruct (iterencode_head 0 v Hp) as (c & tl & E & Hc).
  pose proof (plain_reads_back v Hp 0%nat
                (S (String.length (iterencode indent 0 v))) EmptyString
                ltac:(lia) eq_refl) as Hscan.
  rewrite app_nil_s in Hscan.
  apply starts_value_facts in Hc as (Hws & _ & _ & Hbom).
  rewrite E in *.
  assert (Hpre : String.prefix bom (String c tl) = false).
  { unfold bom. cbn [String.prefix]. 
    destruct (ascii_dec "239" c) as [<- | Hne]; [discriminate Hbom | reflexivity]. }
  rewrite Hpre, (skip_ws_stays c tl Hws), Hscan. reflexivity.
Qed.

End Round_trip.

(** *** The fuel of the scanner *)

Lemma skip_ws_length (s : string) : (String.length (skip_ws s) <= String.length s)%nat.
Proof.
  induction s as [| c s IH]; [apply le_n |].
  cbn [skip_ws]. destruct (is_ws c); cbn [String.length]; lia.
Qed.

Lemma prepend_some chunk res x r :
  prepend chunk res = Some (x, r) -> exists x', res = Some (x', r).
Proof.
  destruct res as [[x' r'] |]; [| discriminate].
  cbn [prepend]. intros [= _ <-]. eauto.
Qed.

Lemma scanstring_length (s x r : string) :
  scanstring s = Some (x, r) -> (String.length r < String.length s)%nat.
Proof.
  remember (String.length s) as n eqn:Hn. revert s x r Hn.
  induction n as [n IH] using lt_wf_ind. intros s x r Hn Hs. subst n.
  assert (Hrec : forall t x', (String.length t < String.length s)%nat ->
                   scanstring t = Some (x', r) -> (String.length r < String.length s)%nat).
  { intros t x' Ht Hscan. pose proof (IH (String.length t) Ht t x' r eq_refl Hscan). lia. }
  clear IH.
  destruct s as [| c rest]; [discriminate |].
  cbn [scanstring] in Hs.
  repeat match type of Hs with
  | Some _ = Some _ => injection Hs as <- <-; cbn [String.length]; lia
  | None = Some _ => discriminate Hs
  | prepend _ (scanstring ?t) = Some _ =>
      apply prepend_some in Hs as [x' Hs];
      apply (Hrec t x'); [cbn [String.length]; lia | exact Hs]
  | context [match ?t with EmptyString => _ | String _ _ => _ end] =>
      destruct t
  | context [match ?o with Some _ => _ | None => _ end] => destruct o
  | context [if ?b then _ else _] => destruct b
  end.
Qed.

Lemma span_digits_length (s : string) :
  (String.length (fst (span_digits s)) + String.length (snd (span_digits s)) = String.length s)%nat.
Proof.
  induction s as [| c s IH]; [reflexivity |].
  cbn [span_digits]. destruct (is_digit c); [| reflexivity].
  destruct (span_digits s) as [ds r]. cbn [fst snd String.length] in *. lia.
Qed.

Lemma match_integer_length (s lexeme r : string) :
  match_integer s = Some (lexeme, r) -> (String.length r < String.length s)%nat.
Proof.
  unfold match_integer. intros H.
  assert (Hgen : forall sign s1,
            (String.length s1 <= String.length s)%nat ->
            match s1 with
            | EmptyString => None
            | String c r0 =>
              if Ascii.eqb c "0" then Some (sign ++ "0", r0)
              else if is_digit c then
                let (ds, r') := span_digits r0 in Some (sign ++ String c ds, r')
              else None
            end = Some (lexeme, r) -> (String.length r < String.length s)%nat).
  { intros sign s1 Hle Hm. destruct s1 as [| c r0]; [discriminate |].
    cbn [String.length] in Hle.
    destruct (Ascii.eqb c "0").
    - injection Hm as _ <-. lia.
    - destruct (is_digit c); [| discriminate].
      pose proof (span_digits_length r0) as Hsp.
      destruct (span_digits r0) as [ds r']. cbn [fst snd] in Hsp.
      injection Hm as _ <-. lia. }
  destruct s as [| c s']; [discriminate |].
  destruct (ascii_dec c "-") as [-> | Hc].
  - apply (Hgen "-" s'); [cbn [String.length]; lia | exact H].
  - apply (Hgen "" (String c s')); [lia |].
    destruct c as [[] [] [] [] [] [] [] []]; try exact H; congruence.
Qed.

Lemma match_frac_length (s : string) : (String.length (snd (match_frac s)) <= String.length s)%nat.
Proof.
  unfold match_frac. destruct s as [| c r]; [apply le_n |].
  destruct (ascii_dec c ".") as [-> | Hc].
  - pose proof (span_digits_length r) as Hsp.
    destruct (span_digits r) as [ds r']. cbn [fst snd] in Hsp.
    destruct (is_empty ds); cbn [snd String.length]; lia.
  - destruct c as [[] [] [] [] [] [] [] []]; try apply le_n; congruence.
Qed.

Lemma match_exp_length (s : string) : (String.length (snd (match_exp s)) <= String.length s)%nat.
Proof.
  unfold match_exp. destruct s as [| e r]; [apply le_n |].
  destruct (Ascii.eqb e "e" || Ascii.eqb e "E"); [| apply le_n].
  assert (Hgen : forall sign r1, (String.length r1 <= String.length r)%nat ->
            (String.length (snd (let (ds, r2) := span_digits r1 in
                       if is_empty ds then (EmptyString, String e r)
                       else (String e (sign ++ ds), r2)))
             <= String.length (String e r))%nat).
  { intros sign r1 Hle. pose proof (span_digits_length r1) as Hsp.
    destruct (span_digits r1) as [ds r2]. cbn [fst snd] in Hsp.
    destruct (is_empty ds); cbn [snd String.length]; lia. }
  destruct r as [| c r']; [apply (Hgen "" ""); apply le_n |].
  destruct (Ascii.eqb c "-" || Ascii.eqb c "+").
  - apply (Hgen (String c "") r'). cbn [String.length]. lia.
  - apply (Hgen "" (String c r')). apply le_n.
Qed.

Lemma match_number_length (s : string) (v : pyval) (r : string) :
  match_number s = Some (v, r) -> (String.length r < String.length s)%nat.
Proof.
  unfold match_number. intros H.
  destruct (match_integer s) as [[lexeme r0] |] eqn:Hi; [| discriminate].
  apply match_integer_length in Hi.
  pose proof (match_frac_length r0) as Hf.
  destruct (match_frac r0) as [frac r1]. cbn [snd] in Hf.
  pose proof (match_exp_length r1) as He.
  destruct (match_exp r1) as [exp r2]. cbn [snd] in He.
  destruct (is_empty frac && is_empty exp); injection H as _ <-; lia.
Qed.

Lemma strip_prefix_length (lit s r : string) :
  strip_prefix lit s = Some r -> (String.length s = String.length lit + String.length r)%nat.
Proof.
  revert s. induction lit as [| a lit IH]; intros s H.
  - cbn in H. injection H as <-. reflexivity.
  - destruct s as [| b s]; [discriminate |]. cbn [strip_prefix] in H.
    destruct (Ascii.eqb a b); [| discriminate].
    apply IH in H. cbn [String.length]. lia.
Qed.

Lemma literal_length (lit : string) (v w : pyval) (s r : string) :
  lit <> EmptyString -> literal lit v s = Some (w, r) -> (String.length r < String.length s)%nat.
Proof.
  unfold literal. intros Hne H.
  destruct (strip_prefix lit s) as [r' |] eqn:Hp; [| discriminate].
  injection H as _ <-. apply strip_prefix_length in Hp.
  destruct lit; [congruence |]. cbn [String.length] in Hp. lia.
Qed.

Lemma scan_once_step fuel s :
  scan_once (S fuel) s = scan_step (array_items fuel) (object_items fuel) s.
Proof. reflexivity. Qed.

Lemma array_items_step fuel s :
  array_items (S fuel) s = array_step (scan_once fuel) (array_items fuel) s.
Proof. reflexivity. Qed.

Lemma object_items_step fuel s :
  object_items (S fuel) s = object_step (scan_once fuel) (object_items fuel) s.
Proof. reflexivity. Qed.

Lemma scan_step_lifts arr obj arr' obj' s v r :
  scan_step arr obj s = Some (v, r) ->
  lifts s r arr arr' -> lifts s r obj obj' ->
  (String.length r < String.length s)%nat /\ scan_step arr' obj' s = Some (v, r).
Proof.
  intros H Harr Hobj. unfold scan_step in *.
  destruct s as [| c rest]; [discriminate |].
  destruct (Ascii.eqb c dquote).
  { destruct (scanstring rest) as [[str r'] |] eqn:Hs; [| discriminate].
    injection H as <- <-. apply scanstring_length in Hs.
    cbn [String.length]. split; [lia | reflexivity]. }
  destruct (Ascii.eqb c "{").
  { pose proof (skip_ws_length rest) as Hsk.
    destruct (skip_ws rest) as [| c1 r1]; [discriminate |].
    cbn [String.length] in *.
    destruct (Ascii.eqb c1 "}"); [injection H as <- <-; split; [lia | reflexivity] |].
    destruct (Ascii.eqb c1 dquote); [| discriminate].
    destruct (obj r1) as [[pairs r'] |] eqn:Ho; [| discriminate].
    injection H as <- <-.
    destruct (Hobj r1 pairs r' Ho) as [Hlt Hlift].
    cbn [String.length] in Hlift. rewrite Hlift by lia. split; [lia | reflexivity]. }
  destruct (Ascii.eqb c "[").
  { pose proof (skip_ws_length rest) as Hsk.
    destruct (skip_ws rest) as [| c1 r1]; [discriminate |].
    cbn [String.length] in *.
    destruct (Ascii.eqb c1 "]"); [injection H as <- <-; split; [lia | reflexivity] |].
    destruct (arr (String c1 r1)) as [[values r'] |] eqn:Ha; [| discriminate].
    injection H as <- <-.
    destruct (Harr (String c1 r1) values r' Ha) as [Hlt Hlift].
    cbn [String.length] in Hlt, Hlift. rewrite Hlift by lia.
    split; [lia | reflexivity]. }
  repeat match type of H with
  | context [if ?b then _ else _] => destruct b
  | literal ?lit _ _ = Some _ =>
      split; [apply (literal_length lit _ _ _ _ ltac:(discriminate) H) | exact H]
  | context [match match_number ?t with _ => _ end] =>
      destruct (match_number t) as [[v' r'] |] eqn:Hn;
      [injection H as <- <-; split;
       [exact (match_number_length _ _ _ Hn) | reflexivity] |]
  | None = Some _ => discriminate H
  end.
Qed.

Lemma array_step_lifts scan arr scan' arr' s vs r :
  array_step scan arr s = Some (vs, r) ->
  lifts s r scan scan' -> lifts s r arr arr' ->
  (String.length r < String.length s)%nat /\ array_step scan' arr' s = Some (vs, r).
Proof.
  intros H Hscan Harr. unfold array_step in *.
  destruct (scan s) as [[value r0] |] eqn:Hv; [| discriminate].
  destruct (Hscan s value r0 Hv) as [Hlt0 Hlift0].
  pose proof (skip_ws_length r0) as Hsk.
  destruct (skip_ws r0) as [| c r1] eqn:Hr0; [discriminate |].
  cbn [String.length] in Hsk.
  destruct (Ascii.eqb c "]") eqn:Eclose.
  { injection H as <- <-. rewrite Hlift0 by lia. rewrite Hr0, Eclose.
    split; [lia | reflexivity]. }
  destruct (Ascii.eqb c ",") eqn:Ecomma; [| discriminate].
  pose proof (skip_ws_length r1) as Hsk1.
  destruct (arr (skip_ws r1)) as [[values r2] |] eqn:Ha; [| discriminate].
  injection H as <- <-.
  destruct (Harr (skip_ws r1) values r2 Ha) as [Hlt Hlift].
  rewrite Hlift0 by lia. rewrite Hr0, Eclose, Ecomma. rewrite Hlift by lia.
  split; [lia | reflexivity].
Qed.

Lemma object_step_lifts scan obj scan' obj' s ps r :
  object_step scan obj s = Some (ps, r) ->
  lifts s r scan scan' -> lifts s r obj obj' ->
  (String.length r < String.length s)%nat /\ object_step scan' obj' s = Some (ps, r).
Proof.
  intros H Hscan Hobj. unfold object_step in *.
  destruct (scanstring s) as [[key r0] |] eqn:Hk; [| discriminate].
  apply scanstring_length in Hk.
  pose proof (skip_ws_length r0) as Hsk0.
  destruct (skip_ws r0) as [| c r1]; [discriminate |].
  cbn [String.length] in Hsk0.
  destruct (Ascii.eqb c ":"); [| discriminate].
  pose proof (skip_ws_length r1) as Hsk1.
  destruct (scan (skip_ws r1)) as [[value r2] |] eqn:Hv; [| discriminate].
  destruct (Hscan (skip_ws r1) value r2 Hv) as [Hlt2 Hlift2].
  pose proof (skip_ws_length r2) as Hsk2.
  destruct (skip_ws r2) as [| c2 r3] eqn:Hr2; [discriminate |].
  cbn [String.length] in Hsk2.
  destruct (Ascii.eqb c2 "}") eqn:Eclose.
  { injection H as <- <-. rewrite Hlift2 by lia. rewrite Hr2, Eclose.
    split; [lia | reflexivity]. }
  destruct (Ascii.eqb c2 ",") eqn:Ecomma; [| discriminate].
  pose proof (skip_ws_length r3) as Hsk3.
  destruct (skip_ws r3) as [| c3 r4] eqn:Hr3; [discriminate |].
  cbn [String.length] in Hsk3.
  destruct (Ascii.eqb c3 dquote) eqn:Equote; [| discriminate].
  destruct (obj r4) as [[pairs r5] |] eqn:Ho; [| discriminate].
  injection H as <- <-.
  destruct (Hobj r4 pairs r5 Ho) as [Hlt Hlift].
  rewrite Hlift2 by lia. rewrite Hr2, Eclose, Ecomma, Hr3, Equote.
  rewrite Hlift by lia.
  split; [lia | reflexivity].
Qed.

Lemma settled_lifts {A : Type} (f : nat -> string -> option (A * string))
  (fuel fuel' : nat) (s r : string) :
  settled f fuel -> (String.length r < String.length s)%nat -> (String.length s - String.length r <= S fuel')%nat ->
  lifts s r (f fuel) (f fuel').
Proof.
  intros Hf Hlt Hfuel s1 x r1 H1.
  destruct (Hf s1 x r1 H1) as [Hlt1 Hlift]. split; [exact Hlt1 |].
  intros Hless. apply Hlift. lia.
Qed.

Lemma all_settled (fuel : nat) :
  settled scan_once fuel /\ settled array_items fuel /\ settled object_items fuel.
Proof.
  induction fuel as [| fuel (IHs & IHa & IHo)].
  - split; [| split]; intros s x r H; discriminate H.
  - split; [| split]; intros s x r H.
    + rewrite scan_once_step in H.
      assert (Hlt : (String.length r < String.length s)%nat).
      { apply (scan_step_lifts _ _ (array_items fuel) (object_items fuel) _ _ _ H);
          intros s1 y r1 H1; [destruct (IHa s1 y r1 H1) | destruct (IHo s1 y r1 H1)];
          auto. }
      split; [exact Hlt |]. intros [| fuel'] Hfuel; [lia |].
      rewrite scan_once_step.
      apply (scan_step_lifts _ _ _ _ _ _ _ H);
        now apply settled_lifts.
    + rewrite array_items_step in H.
      assert (Hlt : (String.length r < String.length s)%nat).
      { apply (array_step_lifts _ _ (scan_once fuel) (array_items fuel) _ _ _ H);
          intros s1 y r1 H1; [destruct (IHs s1 y r1 H1) | destruct (IHa s1 y r1 H1)];
          auto. }
      split; [exact Hlt |]. intros [| fuel'] Hfuel; [lia |].
      rewrite array_items_step.
      apply (array_step_lifts _ _ _ _ _ _ _ H);
        now apply settled_lifts.
    + rewrite object_items_step in H.
      assert (Hlt : (String.length r < String.length s)%nat).
      { apply (object_step_lifts _ _ (scan_once fuel) (object_items fuel) _ _ _ H);
          intros s1 y r1 H1; [destruct (IHs s1 y r1 H1) | destruct (IHo s1 y r1 H1)];
          auto. }
      split; [exact Hlt |]. intros [| fuel'] Hfuel; [lia |].
      rewrite object_items_step.
      apply (object_step_lifts _ _ _ _ _ _ _ H);
        now apply settled_lifts.
Qed.

(** A parse found with some fuel is found with any fuel that covers the
    input: the fuel of [loads] never stands in the way. *)
Theorem scan_once_any_fuel (fuel : nat) (s : string) (v : pyval) (r : string) :
  scan_once fuel s = Some (v, r) ->
  forall fuel', (String.length s <= fuel')%nat -> scan_once fuel' s = Some (v, r).
Proof.
  intros H fuel' Hfuel.
  destruct (all_settled fuel) as [Hs _].
  destruct (Hs s v r H) as [_ Hlift]. apply Hlift. lia.
Qed.

(** Whatever [loads] could read with more fuel, it reads. *)
Corollary loads_any_fuel (fuel : nat) (s : string) (v : pyval) (r : string) :
  String.prefix bom s = false ->
  scan_once fuel (skip_ws s) = Some (v, r) ->
  is_empty (skip_ws r) = true ->
  loads s = Some v.
Proof.
  intros Hbom Hscan Hrest. unfold loads. rewrite Hbom.
  rewrite (scan_once_any_fuel fuel _ v r Hscan)
    by (pose proof (skip_ws_length s); lia).
  now rewrite Hrest.
Qed.

End JsonFacts.

(** ** The planner *)

Module PlannerFacts.

Lemma range_length (n : Z) : List.length (range n) = Z.to_nat n.
Proof.
  unfold range. now rewrite length_map, length_seq.
Qed.

Lemma range_nth_error (n i : Z) :
  0 <= i < n -> nth_error (range n) (Z.to_nat i) = Some i.
Proof.
  intros Hi. unfold range.
  rewrite nth_error_map, nth_error_seq.
  destruct (Nat.ltb_spec (Z.to_nat i) (Z.to_nat n)) as [_ | Hge]; [| lia].
  simpl. now rewrite Z2Nat.id by lia.
Qed.

(** An index taken modulo the length of a cycle stays inside the cycle. *)
Lemma index_mod_in_cycle (xs : list string) (i : Z) :
  xs <> [] -> 0 <= i ->
  nth_error xs (Z.to_nat (i mod Z.of_nat (List.length xs)))
  = Some (index xs (i mod Z.of_nat (List.length xs)) "").
Proof.
  intros Hne Hi. unfold index.
  apply nth_error_nth'.
  assert (0 < Z.of_nat (List.length xs)) by (destruct xs; [congruence | simpl; lia]).
  pose proof (Z.mod_pos_bound i (Z.of_nat (List.length xs))). lia.
Qed.

Lemma activities_length age level character s m :
  List.length (activities (rule_based_plan age level character s m)) = Z.to_nat s.
Proof.
  unfold rule_based_plan. simpl. now rewrite length_map, range_length.
Qed.

Lemma activities_nth age level character s m (i : Z) :
  0 <= i < s ->
  nth_error (activities (rule_based_plan age level character s m)) (Z.to_nat i)
  = Some {| day := index days (i mod 7) "";
            type := index types (i mod 4) "";
            item := character ++ " clip/read";
            focus_phrases := bank_get focus_bank level (bank_get focus_bank "A1" []);
            missions := ["표현 스티커 찾기"; "섀도잉 2회"; "가정 대화 1회 사용"] |}.
Proof.
  intros Hi. unfold rule_based_plan. simpl activities.
  rewrite nth_error_map, (range_nth_error s i Hi). reflexivity.
Qed.

Lemma activities_all (P : Activity -> Prop) age level character s m :
  (forall i, 0 <= i < s ->
     P {| day := index days (i mod 7) "";
          type := index types (i mod 4) "";
          item := character ++ " clip/read";
          focus_phrases := bank_get focus_bank level (bank_get focus_bank "A1" []);
          missions := ["표현 스티커 찾기"; "섀도잉 2회"; "가정 대화 1회 사용"] |}) ->
  Forall P (activities (rule_based_plan age level character s m)).
Proof.
  intros HP. apply Forall_forall. intros a Ha.
  apply In_nth_error in Ha. destruct Ha as [k Hk].
  assert (Hlt : (k < Z.to_nat s)%nat).
  { rewrite <- (activities_length age level character s m).
    apply nth_error_Some. congruence. }
  rewrite <- (Nat2Z.id k) in Hk.
  rewrite activities_nth in Hk by lia.
  injection Hk as <-. apply HP. lia.
Qed.

(** C1: for every number of sessions from 1 to 14 the plan has exactly that
    many activities; the i-th one falls on the day of index [i mod 7] in the
    week that starts on Monday and has the kind of index [i mod 4] in the
    rotation listening, speaking, reading, writing. *)
Theorem plan_follows_day_and_type_cycles
  (age : Z) (level character : string) (sessions minutes : Z) :
  1 <= sessions <= 14 ->
  let plan := rule_based_plan age level character sessions minutes in
  Z.of_nat (List.length (activities plan)) = sessions /\
  forall i, 0 <= i < sessions ->
    exists a,
      nth_error (activities plan) (Z.to_nat i) = Some a /\
      nth_error ["Mon"; "Tue"; "Wed"; "Thu"; "Fri"; "Sat"; "Sun"]
                (Z.to_nat (i mod 7)) = Some (day a) /\
      nth_error ["듣기"; "말하기"; "읽기"; "쓰기"]
                (Z.to_nat (i mod 4)) = Some (type a).
Proof.
  intros Hs plan. subst plan. split.
  - rewrite activities_length. lia.
  - intros i Hi. eexists. split; [apply activities_nth; exact Hi |].
    simpl day. simpl type. split.
    + apply (index_mod_in_cycle days i); [discriminate | lia].
    + apply (index_mod_in_cycle types i); [discriminate | lia].
Qed.

Lemma plan_follows_day_and_type_cycles_at_9 :
  1 <= 9 <= 14 /\
  let plan := rule_based_plan 7 "A1" "Bluey" 9 15 in
  Z.of_nat (List.length (activities plan)) = 9 /\
  forall i, 0 <= i < 9 ->
    exists a,
      nth_error (activities plan) (Z.to_nat i) = Some a /\
      nth_error ["Mon"; "Tue"; "Wed"; "Thu"; "Fri"; "Sat"; "Sun"]
                (Z.to_nat (i mod 7)) = Some (day a) /\
      nth_error ["듣기"; "말하기"; "읽기"; "쓰기"]
                (Z.to_nat (i mod 4)) = Some (type a).
Proof.
  split; [lia | apply (plan_follows_day_and_type_cycles 7 "A1" "Bluey" 9 15); lia].
Defined.

(** With nine sessions the eighth activity is on the day of the first one and
    the fifth has the kind of the first one. *)
Example nine_sessions_wrap_around :
  let acts := activities (rule_based_plan 7 "A1" "Bluey" 9 15) in
  option_map day (nth_error acts 7) = option_map day (nth_error acts 0) /\
  option_map type (nth_error acts 4) = option_map type (nth_error acts 0).
Proof. split; reflexivity. Qed.

(** C4: two calls that differ only in the age return the same plan. *)
Theorem plan_ignores_age
  (age1 age2 : Z) (level character : string) (sessions minutes : Z) :
  rule_based_plan age1 level character sessions minutes
  = rule_based_plan age2 level character sessions minutes.
Proof. reflexivity. Qed.

Lemma bank_get_unknown_level (level : string) :
  level <> "A0" -> level <> "A1" -> level <> "A2" -> level <> "B1" ->
  bank_get focus_bank level (bank_get focus_bank "A1" [])
  = ["Can I ...?"; "I want ..."; "It's my turn."].
Proof.
  intros H0 H1 H2 H3.
  change (bank_get focus_bank "A1" []) with ["Can I ...?"; "I want ..."; "It's my turn."].
  unfold focus_bank. cbn [bank_get].
  repeat match goal with
  | |- context [String.eqb ?k level] =>
      destruct (String.eqb_spec k level) as [Heq | _];
      [exfalso; subst level; congruence |]
  end.
  reflexivity.
Qed.

(** C5: a level outside A0, A1, A2 and B1 gives every activity the phrases of
    level A1. *)
Theorem unknown_level_falls_back_to_A1
  (age : Z) (level character : string) (sessions minutes : Z) :
  level <> "A0" -> level <> "A1" -> level <> "A2" -> level <> "B1" ->
  Forall (fun a => focus_phrases a = ["Can I ...?"; "I want ..."; "It's my turn."])
         (activities (rule_based_plan age level character sessions minutes)).
Proof.
  intros H0 H1 H2 H3. apply activities_all. intros i _. simpl.
  now apply bank_get_unknown_level.
Qed.

Lemma unknown_level_falls_back_to_A1_at_ZZ :
  Forall (fun a => focus_phrases a = ["Can I ...?"; "I want ..."; "It's my turn."])
         (activities (rule_based_plan 7 "ZZ" "Bluey" 4 15)).
Proof.
  apply (unknown_level_falls_back_to_A1 7 "ZZ" "Bluey" 4 15); discriminate.
Defined.

(** C6: the plan for age 7, level A1, Bluey, 4 sessions of 15 minutes has
    both numbers in its weekly goals, 15 as its time per day, and the three
    A1 phrases in every activity. *)
Theorem plan_for_bluey_example :
  let plan := rule_based_plan 7 "A1" "Bluey" 4 15 in
  contains "4" (weekly_goals plan) = true /\
  contains "15" (weekly_goals plan) = true /\
  time_per_day plan = 15 /\
  Forall (fun a => focus_phrases a = ["Can I ...?"; "I want ..."; "It's my turn."])
         (activities plan).
Proof.
  cbv zeta. repeat split; try reflexivity.
  vm_compute. repeat constructor.
Qed.

(** C7: every activity of every plan carries the same three missions, and
    equal inputs give equal plans. *)
Theorem missions_fixed_and_plan_deterministic
  (age : Z) (level character : string) (sessions minutes : Z)
  (age' : Z) (level' character' : string) (sessions' minutes' : Z) :
  age = age' -> level = level' -> character = character' ->
  sessions = sessions' -> minutes = minutes' ->
  Forall (fun a => missions a = ["표현 스티커 찾기"; "섀도잉 2회"; "가정 대화 1회 사용"])
         (activities (rule_based_plan age level character sessions minutes)) /\
  rule_based_plan age level character sessions minutes
  = rule_based_plan age' level' character' sessions' minutes'.
Proof.
  intros -> -> -> -> ->. split; [| reflexivity].
  apply activities_all. intros i _. reflexivity.
Qed.

Lemma missions_fixed_and_plan_deterministic_at_bluey :
  Forall (fun a => missions a = ["표현 스티커 찾기"; "섀도잉 2회"; "가정 대화 1회 사용"])
         (activities (rule_based_plan 7 "A1" "Bluey" 4 15)) /\
  rule_based_plan 7 "A1" "Bluey" 4 15 = rule_based_plan 7 "A1" "Bluey" 4 15.
Proof.
  apply (missions_fixed_and_plan_deterministic
           7 "A1" "Bluey" 4 15 7 "A1" "Bluey" 4 15); reflexivity.
Defined.

End PlannerFacts.

(** ** The catalog client *)

Module ClientFacts.

Lemma success_not_raised (st : Z) :
  success_status st -> (400 <=? st) && (st <? 600) = false.
Proof.
  unfold success_status. intros H.
  destruct (Z.leb_spec 400 st); [lia | reflexivity].
Qed.

Lemma nonempty_empty : nonempty "" = false.
Proof. reflexivity. Qed.

(** The path of [azure_search] once the backend answered with a body that
    parses: the value of [value], or the handler when the body has no [get]. *)
Lemma azure_search_on_parsed_body cfg net query top st body data :
  search_configured cfg = true ->
  net (search_request cfg query top) = Response st body ->
  success_status st ->
  Json.loads body = Some data ->
  azure_search cfg net query top
  = match dict_get data "value" (PList []) with
    | inr v => ([Post (search_request cfg query top)], inr v)
    | inl e => ([Post (search_request cfg query top);
                 St_error "검색 호출 실패: " e], inr (PList []))
    end.
Proof.
  intros Hcfg Hnet Hst Hbody.
  unfold azure_search. rewrite Hcfg. cbn [negb].
  unfold requests_post, raise_for_status, response_json.
  cbn [bind emit try_except]. rewrite Hnet. cbn [bind ret].
  rewrite (success_not_raised st Hst). cbn [bind ret lift app].
  rewrite Hbody. cbn [bind ret lift app].
  destruct (dict_get data "value" (PList [])); reflexivity.
Qed.

(** Reading the settings.  A name found in neither store reads as the empty
    text when the page has a secret store; without one the read raises, the
    module does not load, and no search is ever made. *)
Lemma get_secret_absent (store environ : string -> option string) (name : string) :
  store name = None -> environ name = None ->
  get_secret (Some store) environ name "" = Some "".
Proof.
  intros Hs He. unfold get_secret. now rewrite Hs, He.
Qed.

Lemma get_secret_without_store (environ : string -> option string)
  (name default : string) :
  get_secret None environ name default = None.
Proof. reflexivity. Qed.

Lemma load_settings_without_store (environ : string -> option string) :
  load_settings None environ = None.
Proof. reflexivity. Qed.

Lemma load_settings_with_store (store environ : string -> option string) :
  exists cfg,
    load_settings (Some store) environ = Some cfg /\
    get_secret (Some store) environ "AZURE_SEARCH_ENDPOINT" ""
    = Some (SEARCH_ENDPOINT cfg) /\
    get_secret (Some store) environ "AZURE_SEARCH_KEY" ""
    = Some (SEARCH_KEY cfg) /\
    get_secret (Some store) environ "AZURE_SEARCH_INDEX" ""
    = Some (SEARCH_INDEX cfg) /\
    get_secret (Some store) environ "AZURE_OPENAI_ENDPOINT" ""
    = Some (AOAI_ENDPOINT cfg) /\
    get_secret (Some store) environ "AZURE_OPENAI_KEY" ""
    = Some (AOAI_KEY cfg) /\
    get_secret (Some store) environ "AZURE_OPENAI_DEPLOYMENT" ""
    = Some (AOAI_DEPLOYMENT cfg).
Proof.
  unfold load_settings, get_secret.
  destruct (store "AZURE_SEARCH_ENDPOINT"), (store "AZURE_SEARCH_KEY"),
    (store "AZURE_SEARCH_INDEX"), (store "AZURE_OPENAI_ENDPOINT"),
    (store "AZURE_OPENAI_KEY"), (store "AZURE_OPENAI_DEPLOYMENT");
    eexists; (split; [reflexivity |]); cbn; repeat split.
Qed.

(** C8: when one of the three search settings of the module is empty, as it
    is for a name that no store defines, the search shows the configuration
    warning, posts nothing and returns the empty list. *)
Theorem search_without_configuration (cfg : settings)
  (net : http_request -> http_reply) (query : string) (top : Z) :
  SEARCH_ENDPOINT cfg = "" \/ SEARCH_KEY cfg = "" \/ SEARCH_INDEX cfg = "" ->
  azure_search cfg net query top
  = ([St_warning "Azure AI Search 설정이 필요합니다."], inr (PList [])) /\
  existsb is_post (fst (azure_search cfg net query top)) = false.
Proof.
  intros Hempty.
  assert (Hoff : search_configured cfg = false).
  { unfold search_configured.
    destruct Hempty as [-> | [-> | ->]]; rewrite nonempty_empty;
      rewrite ?andb_false_r; reflexivity. }
  unfold azure_search. rewrite Hoff. split; reflexivity.
Qed.

Lemma search_without_configuration_no_index :
  let cfg := {| SEARCH_ENDPOINT := "https://kids.search.windows.net";
                SEARCH_KEY := "search-key";
                SEARCH_INDEX := "";
                AOAI_ENDPOINT := "https://kids.openai.azure.com";
                AOAI_KEY := "aoai-key";
                AOAI_DEPLOYMENT := "gpt-4o-mini" |} in
  azure_search cfg (fun _ => Response 200 "{}") "bluey" 5
  = ([St_warning "Azure AI Search 설정이 필요합니다."], inr (PList [])) /\
  existsb is_post (fst (azure_search cfg (fun _ => Response 200 "{}") "bluey" 5))
  = false.
Proof.
  cbv zeta.
  apply (search_without_configuration
           {| SEARCH_ENDPOINT := "https://kids.search.windows.net";
              SEARCH_KEY := "search-key";
              SEARCH_INDEX := "";
              AOAI_ENDPOINT := "https://kids.openai.azure.com";
              AOAI_KEY := "aoai-key";
              AOAI_DEPLOYMENT := "gpt-4o-mini" |}
           (fun _ => Response 200 "{}") "bluey" 5).
  right. right. reflexivity.
Defined.

(** *** A success body without [value] *)

(** A body that is a JSON array is valid JSON without a [value] key; reading
    [value] from it raises, and the handler reports the failed call. *)
Lemma array_body_is_reported :
  Json.loads "[]" = Some (PList []) /\
  has_key (PList []) "value" = false /\
  azure_search sample_settings (fun _ => Response 200 "[]") "bluey" 5
  = ([Post (search_request sample_settings "bluey" 5);
      St_error "검색 호출 실패: " AttributeError], inr (PList [])) /\
  ~ body_without_value_is_silent.
Proof.
  split; [reflexivity |]. split; [reflexivity |]. split; [reflexivity |].
  intros H.
  destruct (H sample_settings (fun _ => Response 200 "[]") "bluey" 5 200 "[]"
              (PList [])) as [_ Hsilent];
    try reflexivity; [unfold success_status; lia |].
  vm_compute in Hsilent. discriminate.
Qed.

(** C10, amended: a success whose body is a JSON object without [value] gives
    the empty list, with the request as the only event. *)
Theorem search_object_without_value
  cfg net query top st body (d : list (string * pyval)) :
  search_configured cfg = true ->
  net (search_request cfg query top) = Response st body ->
  success_status st ->
  Json.loads body = Some (PDict d) ->
  lookup d "value" = None ->
  azure_search cfg net query top
  = ([Post (search_request cfg query top)], inr (PList [])) /\
  silent (fst (azure_search cfg net query top)) = true.
Proof.
  intros Hcfg Hnet Hst Hbody Hval.
  rewrite (azure_search_on_parsed_body cfg net query top st body (PDict d))
    by assumption.
  cbn [dict_get]. rewrite Hval. split; reflexivity.
Qed.

Lemma search_object_without_value_at_empty_object :
  azure_search sample_settings (fun _ => Response 200 "{}") "bluey" 5
  = ([Post (search_request sample_settings "bluey" 5)], inr (PList [])) /\
  silent (fst (azure_search sample_settings (fun _ => Response 200 "{}") "bluey" 5))
  = true.
Proof.
  apply (search_object_without_value sample_settings
           (fun _ => Response 200 "{}") "bluey" 5 200 "{}" []).
  - reflexivity.
  - reflexivity.
  - unfold success_status. lia.
  - reflexivity.
  - reflexivity.
Defined.

(** *** What the search returns *)

Lemma dict_get_pairs d key dflt :
  dict_get (PDict d) key dflt = inr (get_or d key dflt).
Proof.
  unfold dict_get, get_or. destruct (lookup d key); reflexivity.
Qed.

(** The match comes back as it was sent: it has no title to read. *)
Lemma untitled_match_is_returned_as_is :
  Json.loads one_untitled_match
  = Some (PDict [("value", PList [PDict [("id", PStr "7")]])]) /\
  azure_search sample_settings (fun _ => Response 200 one_untitled_match) "bluey" 5
  = ([Post (search_request sample_settings "bluey" 5)],
     inr (PList [PDict [("id", PStr "7")]])) /\
  getitem_key (PDict [("id", PStr "7")]) "title" = inl KeyError /\
  ~ search_returns_content_records.
Proof.
  split; [reflexivity |]. split; [reflexivity |]. split; [reflexivity |].
  intros H.
  destruct (H sample_settings (fun _ => Response 200 one_untitled_match)
              "bluey" 5 200 one_untitled_match
              [("value", PList [PDict [("id", PStr "7")]])]
              [PDict [("id", PStr "7")]])
    as (records & Hret & Hall);
    try reflexivity; [unfold success_status; lia |].
  vm_compute in Hret. injection Hret as <-.
  inversion Hall as [| m r ms rs Hco _]; subst.
  destruct Hco as [Htitle _]. vm_compute in Htitle. discriminate.
Qed.

Lemma snippet_of_dict fields :
  sliceable (get_or fields "content" (PStr "")) = true ->
  exists content,
    slice_to 600 (py_or (get_or fields "content" (PStr "")) (PStr "")) = inr content /\
    snippet (PDict fields)
    = inr (PDict [("title", py_or (get_or fields "title" PNone)
                                  (get_or fields "id" (PStr "")));
                  ("series", get_or fields "series" (PStr ""));
                  ("level", get_or fields "level" (PStr ""));
                  ("phrases", get_or fields "phrases" (PList []));
                  ("content", content)]).
Proof.
  intros Hs. unfold snippet. rewrite !dict_get_pairs.
  unfold sliceable in Hs.
  destruct (py_or (get_or fields "content" (PStr "")) (PStr "")) eqn:Hc;
    try discriminate; cbn [slice_to]; eexists; split; reflexivity.
Qed.

(** C2, amended: on success the search returns the matches of the reply as
    they are; it is the prompt builder that reads them with fallbacks: the
    title of a match without one is its id, its phrases default to the empty
    list and its content to the empty string. *)
Theorem search_returns_matches_and_prompt_coerces
  cfg net query top st body (d : list (string * pyval)) (matches : list pyval) :
  search_configured cfg = true ->
  net (search_request cfg query top) = Response st body ->
  success_status st ->
  Json.loads body = Some (PDict d) ->
  lookup d "value" = Some (PList matches) ->
  azure_search cfg net query top
  = ([Post (search_request cfg query top)], inr (PList matches)) /\
  forall fields,
    In (PDict fields) matches ->
    sliceable (get_or fields "content" (PStr "")) = true ->
    exists sn,
      snippet (PDict fields) = inr (PDict sn) /\
      (lookup fields "title" = None ->
       lookup sn "title" = Some (get_or fields "id" (PStr ""))) /\
      (lookup fields "phrases" = None -> lookup sn "phrases" = Some (PList [])) /\
      (lookup fields "content" = None -> lookup sn "content" = Some (PStr "")).
Proof.
  intros Hcfg Hnet Hst Hbody Hval. split.
  - rewrite (azure_search_on_parsed_body cfg net query top st body (PDict d))
      by assumption.
    cbn [dict_get]. rewrite Hval. reflexivity.
  - intros fields _ Hs.
    destruct (snippet_of_dict fields Hs) as (content & Hslice & Hsn).
    eexists. split; [exact Hsn |].
    cbn [lookup String.eqb Ascii.eqb Bool.eqb]. repeat split.
    + intros Ht. unfold get_or at 1. rewrite Ht. reflexivity.
    + intros Hp. unfold get_or. rewrite Hp. reflexivity.
    + intros Hc. unfold get_or in Hslice. rewrite Hc in Hslice.
      cbn in Hslice. congruence.
Qed.

Lemma search_returns_matches_and_prompt_coerces_at_untitled :
  azure_search sample_settings (fun _ => Response 200 one_untitled_match) "bluey" 5
  = ([Post (search_request sample_settings "bluey" 5)],
     inr (PList [PDict [("id", PStr "7")]])) /\
  forall fields,
    In (PDict fields) [PDict [("id", PStr "7")]] ->
    sliceable (get_or fields "content" (PStr "")) = true ->
    exists sn,
      snippet (PDict fields) = inr (PDict sn) /\
      (lookup fields "title" = None ->
       lookup sn "title" = Some (get_or fields "id" (PStr ""))) /\
      (lookup fields "phrases" = None -> lookup sn "phrases" = Some (PList [])) /\
      (lookup fields "content" = None -> lookup sn "content" = Some (PStr "")).
Proof.
  apply (search_returns_matches_and_prompt_coerces sample_settings
           (fun _ => Response 200 one_untitled_match) "bluey" 5 200
           one_untitled_match [("value", PList [PDict [("id", PStr "7")]])]).
  - reflexivity.
  - reflexivity.
  - unfold success_status. lia.
  - reflexivity.
  - reflexivity.
Defined.

(** The snippet of the match that has only an id. *)
Example snippet_of_untitled_match :
  snippet (PDict [("id", PStr "7")])
  = inr (PDict [("title", PStr "7"); ("series", PStr ""); ("level", PStr "");
                ("phrases", PList []); ("content", PStr "")]).
Proof. reflexivity. Qed.

(** ** The enrichment client *)


Lemma for_each_writes_lines (items : list pyval) (lines : list string) :
  all_str items = inr lines ->
  for_each items write_item = (map write_line lines, inr tt).
Proof.
  revert lines. induction items as [| x items IH]; intros lines Hall.
  - injection Hall as <-. reflexivity.
  - cbn [all_str] in Hall. destruct x; try discriminate.
    destruct (all_str items) as [e | ss]; [discriminate |].
    injection Hall as <-.
    cbn [for_each]. rewrite (IH ss eq_refl). reflexivity.
Qed.








(** What the page shows for that object, in full: the two headings follow
    each other.  With a mission in the object a line comes between them. *)
Example summary_only_is_shown_without_mission_line :
  show_rag (PDict [("summary", PStr "Bluey plays.")])
  = ([St_container;
      St_success "RAG 요약 생성됨";
      St_markdown "**Child-friendly Summary**";
      St_write [PStr "Bluey plays."];
      St_markdown "**Focus Phrases**";
      St_write [PStr ""];
      St_markdown "**Missions (3)**";
      St_markdown "**Parent Tips**";
      St_download_button "다운로드: RAG 결과(JSON)"
        (Json.dumps (Some 2%nat) (PDict [("summary", PStr "Bluey plays.")]))
        "rag_result.json" "application/json"],
     inr tt) /\
  no_mission_line
    (fst (show_rag (PDict [("summary", PStr "Bluey plays.");
                           ("missions", PList [PStr "Say hello."])])))
  = false.
Proof.
  split; reflexivity.
Qed.

End ClientFacts.

(** ** The JSON export of the plan *)

Module ExportFacts.

Lemma map_injective {A B : Type} (f : A -> B) :
  (forall x y, f x = f y -> x = y) ->
  forall l l', map f l = map f l' -> l = l'.
Proof.
  intros Hf l. induction l as [| x l IH]; intros [| y l'] H;
    try discriminate H; [reflexivity |].
  cbn [map] in H. injection H as Hxy Hl.
  f_equal; [now apply Hf | now apply IH].
Qed.

Lemma plain_strings (l : list string) : forallb plain (map PStr l) = true.
Proof. induction l as [| s l IH]; [reflexivity | exact IH]. Qed.

Lemma plain_py_of_activity (a : Activity) : plain (py_of_activity a) = true.
Proof.
  unfold py_of_activity. cbn [plain map fst snd forallb].
  rewrite !plain_strings. reflexivity.
Qed.

Lemma plain_py_of_plan (p : WeeklyPlan) : plain (py_of_plan p) = true.
Proof.
  unfold py_of_plan. cbn [plain map fst snd forallb].
  assert (H : forallb plain (map py_of_activity (activities p)) = true).
  { induction (activities p) as [| a l IH]; [reflexivity |].
    cbn [map forallb]. now rewrite plain_py_of_activity, IH. }
  rewrite H. reflexivity.
Qed.

Lemma py_of_activity_inj (a b : Activity) :
  py_of_activity a = py_of_activity b -> a = b.
Proof.
  destruct a, b. unfold py_of_activity. cbn [day type item focus_phrases missions].
  intros H. injection H as Hd Ht Hi Hf Hm.
  assert (HStr : forall x y : string, PStr x = PStr y -> x = y)
    by (intros x y E; congruence).
  apply (map_injective PStr HStr) in Hf, Hm.
  now subst.
Qed.

Lemma py_of_plan_inj (p q : WeeklyPlan) : py_of_plan p = py_of_plan q -> p = q.
Proof.
  destruct p, q. unfold py_of_plan. cbn [weekly_goals activities time_per_day].
  intros H. injection H as Hg Ha Ht.
  apply (map_injective py_of_activity py_of_activity_inj) in Ha.
  now subst.
Qed.

(** Every plan, as a dict, is read back from its export. *)
Lemma export_reads_back (p : WeeklyPlan) :
  Json.loads (week_plan_json p) = Some (py_of_plan p).
Proof.
  unfold week_plan_json. apply JsonFacts.loads_dumps, plain_py_of_plan.
Qed.

(** C9: parsing the JSON export of a plan the planner returned gives back the
    dict of that plan: the same three keys with the same values, the
    activities in the same order. *)
Theorem week_plan_json_round_trip
  (age : Z) (level character : string) (sessions minutes : Z) :
  let plan := rule_based_plan age level character sessions minutes in
  Json.loads (week_plan_json plan) = Some (py_of_plan plan) /\
  Json.loads (week_plan_json plan)
  = Some (PDict
            [("weekly_goals", PStr (weekly_goals plan));
             ("activities", PList (map py_of_activity (activities plan)));
             ("time_per_day", PInt minutes)]).
Proof.
  intros plan. split; apply export_reads_back.
Qed.

(** The dict read back is that of the plan alone. *)
Lemma export_determines_plan (p q : WeeklyPlan) :
  Json.loads (week_plan_json p) = Some (py_of_plan q) -> q = p.
Proof.
  intros H. rewrite export_reads_back in H.
  symmetry. apply py_of_plan_inj. congruence.
Qed.

(** The export of the plan for Bluey, parsed. *)
Example bluey_export_parsed :
  Json.loads (week_plan_json (rule_based_plan 7 "A1" "Bluey" 1 15))
  = Some
      (PDict
         [("weekly_goals", PStr "1회 × 15분 / 회");
          ("activities",
           PList
             [PDict
                [("day", PStr "Mon"); ("type", PStr "듣기");
                 ("item", PStr "Bluey clip/read");
                 ("focus_phrases",
                  PList [PStr "Can I ...?"; PStr "I want ..."; PStr "It's my turn."]);
                 ("missions",
                  PList [PStr "표현 스티커 찾기"; PStr "섀도잉 2회";
                         PStr "가정 대화 1회 사용"])]]);
          ("time_per_day", PInt 15)]).
Proof. vm_compute. reflexivity. Qed.

(** The download button of the plan tab carries that export. *)
Lemma plan_tab_exports_plan (age : Z) (level character : string)
  (sessions minutes : Z) :
  exists shown,
    fst (plan_tab age level character sessions minutes)
    = (shown
       ++ [St_download_button "다운로드: 주간 계획 JSON"
             (week_plan_json (rule_based_plan age level character sessions minutes))
             "week_plan.json" "application/json"])%list.
Proof.
  unfold plan_tab. cbn [bind emit].
  destruct (for_each _ _) as [tr [e | []]] eqn:Hloop.
  - exfalso. revert tr e Hloop.
    induction (activities (rule_based_plan age level character sessions minutes))
      as [| a l IH]; intros tr e Hloop; [discriminate Hloop |].
    cbn [for_each bind emit] in Hloop.
    destruct (for_each l _) as [tr' [e' | []]] eqn:Hl; [| discriminate Hloop].
    now apply (IH tr' e').
  - cbn [fst]. eexists (_ :: tr). reflexivity.
Qed.

End ExportFacts.

(** * Further properties *)

(** ** The planner *)

Module PlannerMore.
Import PlannerFacts.

(** X1: with no session, or a negative number of them, the plan is still
    returned and has no activity. *)
Theorem plan_without_sessions (age : Z) (level character : string)
  (sessions minutes : Z) :
  sessions <= 0 ->
  rule_based_plan age level character sessions minutes
  = {| weekly_goals :=
         str_of_int sessions ++ "회 × " ++ str_of_int minutes ++ "분 / 회";
       activities := [];
       time_per_day := minutes |}.
Proof.
  intros Hs. unfold rule_based_plan, range.
  replace (Z.to_nat sessions) with 0%nat by lia. reflexivity.
Qed.

Lemma plan_without_sessions_at_minus_3 :
  rule_based_plan 7 "A1" "Bluey" (-3) 15
  = {| weekly_goals :=
         str_of_int (-3) ++ "회 × " ++ str_of_int 15 ++ "분 / 회";
       activities := [];
       time_per_day := 15 |}.
Proof. apply (plan_without_sessions 7 "A1" "Bluey" (-3) 15). lia. Defined.

Lemma index_injective (xs : list string) (i j : Z) :
  NoDup xs -> 0 <= i < Z.of_nat (List.length xs) ->
  0 <= j < Z.of_nat (List.length xs) ->
  index xs i "" = index xs j "" -> i = j.
Proof.
  intros Hnd Hi Hj H. unfold index in H.
  apply NoDup_nth in H; [lia | exact Hnd | lia | lia].
Qed.

Lemma days_distinct : NoDup days.
Proof.
  unfold days. repeat constructor; cbn [In]; intros H;
    repeat (destruct H as [H | H]; [discriminate H |]); exact H.
Qed.

Lemma types_distinct : NoDup types.
Proof.
  unfold types. repeat constructor; cbn [In]; intros H;
    repeat (destruct H as [H | H]; [discriminate H |]); exact H.
Qed.

(** X2: two sessions of a plan fall on the same day exactly when their
    positions agree modulo 7, and have the same kind exactly when they agree
    modulo 4. *)
Theorem same_day_iff_same_weekday_index
  (age : Z) (level character : string) (sessions minutes i j : Z) :
  0 <= i < sessions -> 0 <= j < sessions ->
  exists a b,
    nth_error (activities (rule_based_plan age level character sessions minutes))
              (Z.to_nat i) = Some a /\
    nth_error (activities (rule_based_plan age level character sessions minutes))
              (Z.to_nat j) = Some b /\
    (day a = day b <-> i mod 7 = j mod 7) /\
    (type a = type b <-> i mod 4 = j mod 4).
Proof.
  intros Hi Hj. eexists. eexists.
  split; [apply activities_nth; exact Hi |].
  split; [apply activities_nth; exact Hj |].
  cbn [day type]. split; split; intros H; try (now rewrite H).
  - apply (index_injective days); [apply days_distinct | | | exact H];
      cbn [List.length days]; apply Z.mod_pos_bound; lia.
  - apply (index_injective types); [apply types_distinct | | | exact H];
      cbn [List.length types]; apply Z.mod_pos_bound; lia.
Qed.

Lemma same_day_iff_same_weekday_index_at_1_8 :
  exists a b,
    nth_error (activities (rule_based_plan 7 "A1" "Bluey" 9 15)) (Z.to_nat 1) = Some a /\
    nth_error (activities (rule_based_plan 7 "A1" "Bluey" 9 15)) (Z.to_nat 8) = Some b /\
    (day a = day b <-> 1 mod 7 = 8 mod 7) /\
    (type a = type b <-> 1 mod 4 = 8 mod 4).
Proof.
  apply (same_day_iff_same_weekday_index 7 "A1" "Bluey" 9 15 1 8); lia.
Defined.

Lemma bank_get_three (level : string) :
  List.length (bank_get focus_bank level (bank_get focus_bank "A1" [])) = 3%nat.
Proof.
  change (bank_get focus_bank "A1" []) with ["Can I ...?"; "I want ..."; "It's my turn."].
  unfold focus_bank. cbn [bank_get].
  repeat match goal with
  | |- context [String.eqb ?k level] => destruct (String.eqb k level)
  end; reflexivity.
Qed.

(** X3: whatever the level, every activity has three focus phrases, three
    missions and the item of the character. *)
Theorem every_activity_has_three_phrases
  (age : Z) (level character : string) (sessions minutes : Z) :
  Forall (fun a =>
            List.length (focus_phrases a) = 3%nat /\
            List.length (missions a) = 3%nat /\
            item a = character ++ " clip/read")
         (activities (rule_based_plan age level character sessions minutes)).
Proof.
  apply activities_all. intros i _. cbn [focus_phrases missions item].
  split; [apply bank_get_three | split; reflexivity].
Qed.

End PlannerMore.

(** ** The two clients *)

Module ClientMore.
Import ClientFacts.

Ltac run_io :=
  cbn [bind emit try_except ret raise lift app fst snd negb].

Ltac run_io_in H :=
  cbn [bind emit try_except ret raise lift app fst snd negb] in H.

(** The three ways a search ends. *)
Lemma azure_search_cases cfg net (query : string) (top : Z) :
  azure_search cfg net query top
  = ([St_warning "Azure AI Search 설정이 필요합니다."], inr (PList [])) \/
  (exists e,
     azure_search cfg net query top
     = ([Post (search_request cfg query top); St_error "검색 호출 실패: " e],
        inr (PList []))) \/
  (exists v,
     azure_search cfg net query top
     = ([Post (search_request cfg query top)], inr v)).
Proof.
  unfold azure_search.
  destruct (search_configured cfg); [| left; reflexivity].
  right. cbn [negb]. unfold requests_post, raise_for_status, response_json.
  run_io.
  destruct (net (search_request cfg query top)) as [| st body]; run_io;
    [left; eexists; reflexivity |].
  destruct ((400 <=? st) && (st <? 600)); run_io;
    [left; eexists; reflexivity |].
  destruct (Json.loads body) as [data |]; run_io;
    [| left; eexists; reflexivity].
  destruct (dict_get data "value" (PList [])) as [e | v]; run_io;
    [left | right]; eexists; reflexivity.
Qed.

(** X4: the search always returns: it raises nothing, posts at most one
    request, and gives the empty list whenever it warns or reports an error. *)
Theorem azure_search_always_returns cfg net (query : string) (top : Z) :
  exists tr v,
    azure_search cfg net query top = (tr, inr v) /\
    (count_posts tr <= 1)%nat /\
    (silent tr = false -> v = PList []).
Proof.
  destruct (azure_search_cases cfg net query top) as [E | [[e E] | [v E]]];
    rewrite E; eexists; eexists; (split; [reflexivity |]);
    (split; [cbn; lia |]).
  - reflexivity.
  - reflexivity.
  - discriminate.
Qed.

Lemma azure_search_always_returns_at_sample :
  exists tr v,
    azure_search sample_settings (fun _ => NoReply) "bluey" 5 = (tr, inr v) /\
    (count_posts tr <= 1)%nat /\
    (silent tr = false -> v = PList []).
Proof. apply (azure_search_always_returns sample_settings (fun _ => NoReply)). Defined.

(** X5: when the backend does not reply, replies with an error status or
    with a body that is not JSON, the search reports that one failure after
    its single request and returns the empty list. *)
Theorem failed_search_is_reported cfg net (query : string) (top : Z) (e : exn) :
  search_configured cfg = true ->
  reply_error (net (search_request cfg query top)) = Some e ->
  azure_search cfg net query top
  = ([Post (search_request cfg query top); St_error "검색 호출 실패: " e],
     inr (PList [])).
Proof.
  intros Hcfg Herr. unfold azure_search. rewrite Hcfg. cbn [negb].
  unfold requests_post, raise_for_status, response_json. run_io.
  unfold reply_error in Herr.
  destruct (net (search_request cfg query top)) as [| st body]; run_io.
  { injection Herr as <-. reflexivity. }
  destruct ((400 <=? st) && (st <? 600)); run_io.
  { injection Herr as <-. reflexivity. }
  destruct (Json.loads body) as [data |]; [discriminate Herr |].
  injection Herr as <-. reflexivity.
Qed.

Lemma failed_search_is_reported_at_404 :
  azure_search sample_settings (fun _ => Response 404 "Not Found") "bluey" 5
  = ([Post (search_request sample_settings "bluey" 5);
      St_error "검색 호출 실패: " (HTTPError 404)],
     inr (PList [])).
Proof.
  apply (failed_search_is_reported sample_settings
           (fun _ => Response 404 "Not Found") "bluey" 5 (HTTPError 404));
    reflexivity.
Defined.

(** X6: when one of the three OpenAI settings of the module is empty, the
    chat call shows the configuration warning, posts nothing and returns
    [None]. *)
Theorem chat_without_configuration (cfg : settings)
  (net : http_request -> http_reply) (messages : pyval) (temperature : string)
  (max_tokens : Z) :
  AOAI_ENDPOINT cfg = "" \/ AOAI_KEY cfg = "" \/ AOAI_DEPLOYMENT cfg = "" ->
  aoai_chat cfg net messages temperature max_tokens
  = ([St_warning "Azure OpenAI 설정이 필요합니다."], inr PNone).
Proof.
  intros Hempty.
  assert (Hoff : aoai_configured cfg = false).
  { unfold aoai_configured.
    destruct Hempty as [-> | [-> | ->]]; rewrite nonempty_empty;
      rewrite ?andb_false_r; reflexivity. }
  unfold aoai_chat. rewrite Hoff. reflexivity.
Qed.

Lemma chat_without_configuration_no_key :
  aoai_chat
    {| SEARCH_ENDPOINT := "https://kids.search.windows.net";
       SEARCH_KEY := "search-key";
       SEARCH_INDEX := "kids-index";
       AOAI_ENDPOINT := "https://kids.openai.azure.com";
       AOAI_KEY := "";
       AOAI_DEPLOYMENT := "gpt-4o-mini" |}
    (fun _ => Response 200 "{}") (PList []) "0.3" 800
  = ([St_warning "Azure OpenAI 설정이 필요합니다."], inr PNone).
Proof.
  apply (chat_without_configuration
           {| SEARCH_ENDPOINT := "https://kids.search.windows.net";
              SEARCH_KEY := "search-key";
              SEARCH_INDEX := "kids-index";
              AOAI_ENDPOINT := "https://kids.openai.azure.com";
              AOAI_KEY := "";
              AOAI_DEPLOYMENT := "gpt-4o-mini" |}
           (fun _ => Response 200 "{}") (PList []) "0.3" 800).
  right. left. reflexivity.
Defined.

(** The three ways a chat call ends. *)
Lemma aoai_chat_cases cfg net (messages : pyval) (temperature : string)
  (max_tokens : Z) :
  aoai_chat cfg net messages temperature max_tokens
  = ([St_warning "Azure OpenAI 설정이 필요합니다."], inr PNone) \/
  (exists e,
     aoai_chat cfg net messages temperature max_tokens
     = ([Post (chat_request cfg messages temperature max_tokens);
         St_error "AOAI 호출 실패: " e], inr PNone)) \/
  (exists rag,
     aoai_chat cfg net messages temperature max_tokens
     = ([Post (chat_request cfg messages temperature max_tokens)], inr rag)).
Proof.
  unfold aoai_chat.
  destruct (aoai_configured cfg); [| left; reflexivity].
  right. cbn [negb]. unfold requests_post, raise_for_status, response_json.
  run_io.
  destruct (net (chat_request cfg messages temperature max_tokens))
    as [| st body]; run_io; [left; eexists; reflexivity |].
  destruct ((400 <=? st) && (st <? 600)); run_io;
    [left; eexists; reflexivity |].
  destruct (Json.loads body) as [data |]; run_io;
    [| left; eexists; reflexivity].
  destruct (message_content data) as [e | content]; run_io;
    [left; eexists; reflexivity |].
  unfold json_loads.
  destruct content as [| b | n | f | text | l | d]; run_io;
    try (left; eexists; reflexivity).
  destruct (Json.loads text) as [rag |]; run_io;
    [right | left]; eexists; reflexivity.
Qed.

(** X7: the chat call always returns: it raises nothing, posts at most one
    request, and gives [None] whenever it warns or reports an error. *)
Theorem aoai_chat_always_returns cfg net (messages : pyval)
  (temperature : string) (max_tokens : Z) :
  exists tr v,
    aoai_chat cfg net messages temperature max_tokens = (tr, inr v) /\
    (count_posts tr <= 1)%nat /\
    (silent tr = false -> v = PNone).
Proof.
  destruct (aoai_chat_cases cfg net messages temperature max_tokens)
    as [E | [[e E] | [v E]]];
    rewrite E; eexists; eexists; (split; [reflexivity |]);
    (split; [cbn; lia |]).
  - reflexivity.
  - reflexivity.
  - discriminate.
Qed.

Lemma aoai_chat_always_returns_at_sample :
  exists tr v,
    aoai_chat sample_settings (fun _ => NoReply) (PList []) "0.3" 800
    = (tr, inr v) /\
    (count_posts tr <= 1)%nat /\
    (silent tr = false -> v = PNone).
Proof. apply (aoai_chat_always_returns sample_settings (fun _ => NoReply)). Defined.

(** X8: a completion whose first choice has no usable content (no choices,
    a missing key, a content that is not text or not JSON) is reported as a
    failed call and gives [None]. *)
Theorem unusable_completion_is_reported
  cfg net (messages : pyval) (temperature : string) (max_tokens : Z)
  (st : Z) (body : string) (data : pyval) (e : exn) :
  aoai_configured cfg = true ->
  net (chat_request cfg messages temperature max_tokens) = Response st body ->
  success_status st ->
  Json.loads body = Some data ->
  content_error data = Some e ->
  aoai_chat cfg net messages temperature max_tokens
  = ([Post (chat_request cfg messages temperature max_tokens);
      St_error "AOAI 호출 실패: " e], inr PNone).
Proof.
  intros Hcfg Hnet Hst Hbody Herr.
  unfold aoai_chat. rewrite Hcfg. cbn [negb].
  unfold requests_post, raise_for_status, response_json. run_io.
  rewrite Hnet. run_io. rewrite (success_not_raised st Hst). run_io.
  rewrite Hbody. run_io. unfold content_error in Herr.
  destruct (message_content data) as [e' | content]; run_io.
  { injection Herr as <-. reflexivity. }
  unfold json_loads.
  destruct content as [| b | n | f | text | l | d]; run_io;
    try (injection Herr as <-; reflexivity).
  destruct (Json.loads text); [discriminate Herr |].
  injection Herr as <-. reflexivity.
Qed.

Lemma unusable_completion_is_reported_at_no_choices :
  aoai_chat sample_settings (fun _ => Response 200 no_choices) (PList []) "0.3" 800
  = ([Post (chat_request sample_settings (PList []) "0.3" 800);
      St_error "AOAI 호출 실패: " IndexError], inr PNone).
Proof.
  apply (unusable_completion_is_reported sample_settings
           (fun _ => Response 200 no_choices) (PList []) "0.3" 800 200
           no_choices (PDict [("choices", PList [])]) IndexError).
  - reflexivity.
  - reflexivity.
  - unfold success_status. lia.
  - reflexivity.
  - reflexivity.
Defined.

End ClientMore.

(** ** The prompt *)

Module PromptMore.
Import ClientFacts JsonFacts.

Lemma str_take_prefix (n : nat) (s : string) :
  String.prefix (str_take n s) s = true.
Proof.
  revert n. induction s as [| c s IH]; intros n; [reflexivity |].
  cbn [str_take]. destruct (is_cont_byte c).
  - cbn [String.prefix]. destruct (ascii_dec c c); [apply IH | congruence].
  - destruct n; [reflexivity |].
    cbn [String.prefix]. destruct (ascii_dec c c); [apply IH | congruence].
Qed.

Lemma str_len_take (n : nat) (s : string) : (str_len (str_take n s) <= n)%nat.
Proof.
  revert n. induction s as [| c s IH]; intros n; [cbn; lia |].
  cbn [str_take]. destruct (is_cont_byte c) eqn:Hc.
  - cbn [str_len]. rewrite Hc. apply IH.
  - destruct n; [cbn; lia |]. cbn [str_len]. rewrite Hc.
    specialize (IH n). lia.
Qed.

Lemma str_take_all (n : nat) (s : string) :
  (str_len s <= n)%nat -> str_take n s = s.
Proof.
  revert n. induction s as [| c s IH]; intros n H; [reflexivity |].
  cbn [str_take str_len] in *. destruct (is_cont_byte c).
  - now rewrite IH.
  - destruct n; [lia |]. rewrite IH; [reflexivity | lia].
Qed.

Lemma str_len_app (a b : string) : str_len (a ++ b) = (str_len a + str_len b)%nat.
Proof.
  induction a as [| c a IH]; [reflexivity |].
  cbn [append str_len]. destruct (is_cont_byte c); lia.
Qed.

(** X9: the content a document has in the prompt is a prefix of its content
    of at most 600 characters, and the whole content when that is no longer. *)
Theorem snippet_content_is_cut_to_600 (fields : list (string * pyval))
  (s : string) :
  lookup fields "content" = Some (PStr s) ->
  exists sn t,
    snippet (PDict fields) = inr (PDict sn) /\
    lookup sn "content" = Some (PStr t) /\
    String.prefix t s = true /\
    (str_len t <= 600)%nat /\
    ((str_len s <= 600)%nat -> t = s).
Proof.
  intros Hc.
  assert (Hget : get_or fields "content" (PStr "") = PStr s)
    by (unfold get_or; now rewrite Hc).
  assert (Hor : py_or (PStr s) (PStr "") = PStr (if Json.is_empty s then "" else s)).
  { unfold py_or. cbn [truthy]. destruct s; reflexivity. }
  destruct (snippet_of_dict fields) as (content & Hslice & Hsn).
  { unfold sliceable. rewrite Hget, Hor. reflexivity. }
  rewrite Hget, Hor in Hslice. cbn [slice_to] in Hslice. injection Hslice as <-.
  eexists. exists (str_take 600 s). split; [exact Hsn |].
  split; [destruct s; reflexivity |].
  split; [apply str_take_prefix |]. split; [apply str_len_take |].
  apply str_take_all.
Qed.

Lemma snippet_content_is_cut_to_600_at_hello :
  exists sn t,
    snippet (PDict [("id", PStr "7"); ("content", PStr "hello")]) = inr (PDict sn) /\
    lookup sn "content" = Some (PStr t) /\
    String.prefix t "hello" = true /\
    (str_len t <= 600)%nat /\
    ((str_len "hello" <= 600)%nat -> t = "hello").
Proof.
  apply (snippet_content_is_cut_to_600
           [("id", PStr "7"); ("content", PStr "hello")] "hello").
  reflexivity.
Defined.

Lemma snippets_non_dict (docs : list pyval) :
  existsb (fun d => negb (is_dict d)) docs = true ->
  exists e, snippets docs = inl e.
Proof.
  induction docs as [| d docs IH]; intros H; [discriminate H |].
  cbn [existsb] in H. cbn [snippets].
  destruct (snippet d) as [e | sn] eqn:Hsn; [eauto |].
  destruct d; try discriminate Hsn.
  cbn [is_dict negb orb] in H. destruct (IH H) as [e ->]. eauto.
Qed.

(** X10: when one of the documents is not a dict, building the prompt
    raises, the enrichment block raises with it, and nothing is posted. *)
Theorem prompt_rejects_a_document_that_is_no_dict
  cfg net (q : string) (docs : list pyval) :
  existsb (fun d => negb (is_dict d)) docs = true ->
  exists e,
    build_rag_prompt q (PList docs) = inl e /\
    rag_block cfg net q (PList docs) = ([], inl e).
Proof.
  intros H. destruct (snippets_non_dict docs H) as [e He].
  exists e. unfold rag_block, build_rag_prompt. cbn [iterate]. rewrite He.
  split; reflexivity.
Qed.

Lemma prompt_rejects_a_document_that_is_no_dict_at_text :
  exists e,
    build_rag_prompt "bluey" (PList [PDict [("id", PStr "7")]; PStr "x"]) = inl e /\
    rag_block sample_settings (fun _ => NoReply) "bluey"
      (PList [PDict [("id", PStr "7")]; PStr "x"]) = ([], inl e).
Proof.
  apply (prompt_rejects_a_document_that_is_no_dict sample_settings
           (fun _ => NoReply) "bluey" [PDict [("id", PStr "7")]; PStr "x"]).
  reflexivity.
Defined.

Lemma plain_lookup (d : list (string * pyval)) (k : string) (x : pyval) :
  forallb (fun kv => plain (snd kv)) d = true ->
  lookup d k = Some x -> plain x = true.
Proof.
  induction d as [| [k' v] d IH]; intros Hp Hl; [discriminate Hl |].
  cbn [forallb snd] in Hp. apply andb_true_iff in Hp as [Hv Hd].
  cbn [lookup] in Hl. destruct (String.eqb k' k); [congruence | auto].
Qed.

Lemma plain_get_or (d : list (string * pyval)) (k : string) (dflt : pyval) :
  forallb (fun kv => plain (snd kv)) d = true -> plain dflt = true ->
  plain (get_or d k dflt) = true.
Proof.
  intros Hp Hd. unfold get_or. destruct (lookup d k) eqn:Hl; [| exact Hd].
  now apply (plain_lookup d k).
Qed.

Lemma plain_firstn (n : nat) (l : list pyval) :
  forallb plain l = true -> forallb plain (firstn n l) = true.
Proof.
  revert n. induction l as [| x l IH]; intros [| n] H; try reflexivity.
  cbn [firstn forallb] in *. apply andb_true_iff in H as [-> Hl]. now apply IH.
Qed.

Lemma plain_slice (n : nat) (v w : pyval) :
  plain v = true -> slice_to n v = inr w -> plain w = true.
Proof.
  intros Hp Hs. destruct v; try discriminate Hs; injection Hs as <-;
    [reflexivity | now apply plain_firstn].
Qed.

Lemma plain_py_or (a b : pyval) :
  plain a = true -> plain b = true -> plain (py_or a b) = true.
Proof. intros Ha Hb. unfold py_or. now destruct (truthy a). Qed.

Lemma snippet_plain (d : pyval) :
  plain_doc d = true -> exists sn, snippet d = inr sn /\ plain sn = true.
Proof.
  destruct d as [| | | | | | fields]; try discriminate. cbn [plain_doc plain].
  intros H. apply andb_true_iff in H as [H Hs].
  apply andb_true_iff in H as [_ Hp].
  destruct (snippet_of_dict fields Hs) as (content & Hslice & Hsn).
  eexists. split; [exact Hsn |].
  assert (Ht : plain (py_or (get_or fields "title" PNone)
                            (get_or fields "id" (PStr ""))) = true)
    by (apply plain_py_or; now apply plain_get_or).
  assert (Hse : plain (get_or fields "series" (PStr "")) = true)
    by now apply plain_get_or.
  assert (Hle : plain (get_or fields "level" (PStr "")) = true)
    by now apply plain_get_or.
  assert (Hph : plain (get_or fields "phrases" (PList [])) = true)
    by now apply plain_get_or.
  assert (Hco : plain content = true).
  { apply (plain_slice 600 _ content) in Hslice; [exact Hslice |].
    apply plain_py_or; [now apply plain_get_or | reflexivity]. }
  cbn [plain map fst snd forallb]. rewrite Ht, Hse, Hle, Hph, Hco. reflexivity.
Qed.

Lemma snippets_plain (docs : list pyval) :
  forallb plain_doc docs = true ->
  exists sns,
    snippets docs = inr sns /\ List.length sns = List.length docs /\
    forallb plain sns = true.
Proof.
  induction docs as [| d docs IH]; intros H.
  - exists []. repeat split.
  - cbn [forallb] in H. apply andb_true_iff in H as [Hd Hdocs].
    destruct (snippet_plain d Hd) as (sn & Hsn & Hp).
    destruct (IH Hdocs) as (sns & Hsns & Hlen & Hps).
    exists (sn :: sns). cbn [snippets]. rewrite Hsn, Hsns.
    cbn [List.length forallb]. rewrite Hp, Hps, Hlen. repeat split.
Qed.

(** X11: for plain documents the prompt has the system message and a user
    message whose content is JSON that reads back with the query as it was
    typed and one snippet per document, in order. *)
Theorem prompt_carries_query_and_snippets (q : string) (docs : list pyval) :
  forallb plain_doc docs = true ->
  exists sns text user,
    snippets docs = inr sns /\
    List.length sns = List.length docs /\
    build_rag_prompt q (PList docs)
    = inr (PList [PDict [("role", PStr "system"); ("content", PStr system_prompt)];
                  PDict [("role", PStr "user"); ("content", PStr text)]]) /\
    Json.loads text = Some (PDict user) /\
    lookup user "query" = Some (PStr q) /\
    lookup user "docs" = Some (PList sns).
Proof.
  intros H. destruct (snippets_plain docs H) as (sns & Hsns & Hlen & Hp).
  exists sns. eexists. eexists.
  split; [exact Hsns |]. split; [exact Hlen |].
  unfold build_rag_prompt. cbn [iterate]. rewrite Hsns.
  split; [reflexivity |].
  split; [apply loads_dumps; cbn; now rewrite Hp |].
  split; reflexivity.
Qed.

Lemma prompt_carries_query_and_snippets_at_one_doc :
  exists sns text user,
    snippets [PDict [("id", PStr "7"); ("content", PStr "hello")]] = inr sns /\
    List.length sns = List.length [PDict [("id", PStr "7"); ("content", PStr "hello")]] /\
    build_rag_prompt "bluey" (PList [PDict [("id", PStr "7"); ("content", PStr "hello")]])
    = inr (PList [PDict [("role", PStr "system"); ("content", PStr system_prompt)];
                  PDict [("role", PStr "user"); ("content", PStr text)]]) /\
    Json.loads text = Some (PDict user) /\
    lookup user "query" = Some (PStr "bluey") /\
    lookup user "docs" = Some (PList sns).
Proof.
  apply (prompt_carries_query_and_snippets "bluey"
           [PDict [("id", PStr "7"); ("content", PStr "hello")]]).
  reflexivity.
Defined.

End PromptMore.

(** ** The displays of the enrichment and of the plan *)

Module PageMore.
Import ClientFacts JsonFacts ExportFacts ClientMore PromptMore.

(** X12: a result that is neither a dict nor a float and that counts as true
    (a non-empty list, a non-empty text, a number other than zero, [True])
    passes the test of the page and then raises at its first read, after the
    heading of the summary. *)
Theorem show_rag_fails_on_a_value_that_is_no_dict (rag : pyval) :
  truthy rag = true -> is_dict rag = false -> is_float rag = false ->
  show_rag rag
  = ([St_container; St_success "RAG 요약 생성됨";
      St_markdown "**Child-friendly Summary**"], inl AttributeError).
Proof.
  intros Ht Hd Hf. unfold show_rag. rewrite Ht.
  destruct rag; try discriminate Hd; try discriminate Hf; reflexivity.
Qed.

Lemma show_rag_fails_on_a_value_that_is_no_dict_at_list :
  show_rag (PList [PStr "Bluey plays."])
  = ([St_container; St_success "RAG 요약 생성됨";
      St_markdown "**Child-friendly Summary**"], inl AttributeError).
Proof.
  apply (show_rag_fails_on_a_value_that_is_no_dict (PList [PStr "Bluey plays."]));
    reflexivity.
Defined.

Lemma for_each_no_post (items : list pyval) :
  filter is_post (fst (for_each items write_item)) = [].
Proof.
  induction items as [| x items IH]; [reflexivity |].
  cbn [for_each]. unfold write_item at 1.
  destruct (str_add "- " x) as [e | line]; [reflexivity |].
  cbn [bind lift emit app]. 
  destruct (for_each items write_item) as [tr r]. cbn [fst] in *.
  destruct r; cbn [fst app filter is_post]; exact IH.
Qed.

(** X13: when the page shows a plain result, its last event is the download
    button, and the document behind it reads back as that result. *)
Theorem rag_export_is_read_back (d : list (string * pyval)) (tr : list event) :
  plain (PDict d) = true -> d <> [] ->
  show_rag (PDict d) = (tr, inr tt) ->
  exists shown data,
    tr = (shown ++ [St_download_button "다운로드: RAG 결과(JSON)" data
                      "rag_result.json" "application/json"])%list /\
    Json.loads data = Some (PDict d).
Proof.
  intros Hp Hne Hshow. unfold show_rag in Hshow.
  assert (Ht : truthy (PDict d) = true) by (destruct d; [congruence | reflexivity]).
  rewrite Ht, !dict_get_pairs in Hshow. run_io_in Hshow.
  destruct (str_join ", " (get_or d "focus_phrases" (PList []))) as [e | line];
    run_io_in Hshow; [discriminate Hshow |].
  destruct (iterate (get_or d "missions" (PList []))) as [e | ms];
    run_io_in Hshow; [discriminate Hshow |].
  destruct (for_each ms write_item) as [tr1 [e | []]];
    run_io_in Hshow; [discriminate Hshow |].
  destruct (iterate (get_or d "parent_tips" (PList []))) as [e | ts];
    run_io_in Hshow; [discriminate Hshow |].
  rewrite ?List.app_nil_r in Hshow.
  destruct (for_each ts write_item) as [tr2 [e | []]];
    run_io_in Hshow.
  { rewrite ?List.app_nil_r in Hshow. discriminate Hshow. }
  injection Hshow as <-.
  eexists (_ :: _ :: _ :: _ :: _ :: _ :: _ :: (tr1 ++ _ :: tr2))%list.
  eexists. split.
  - cbn [app]. rewrite <- List.app_assoc. reflexivity.
  - now apply loads_dumps.
Qed.

Lemma rag_export_is_read_back_at_summary_only :
  exists shown data,
    fst (show_rag (PDict [("summary", PStr "Bluey plays.")]))
    = (shown ++ [St_download_button "다운로드: RAG 결과(JSON)" data
                   "rag_result.json" "application/json"])%list /\
    Json.loads data = Some (PDict [("summary", PStr "Bluey plays.")]).
Proof.
  apply (rag_export_is_read_back [("summary", PStr "Bluey plays.")]
           (fst (show_rag (PDict [("summary", PStr "Bluey plays.")])))).
  - reflexivity.
  - discriminate.
  - reflexivity.
Defined.

Lemma for_each_blocks (acts : list Activity) (body : Activity -> io unit) :
  (forall a, body a = (activity_block a, inr tt)) ->
  for_each acts body = (flat_map activity_block acts, inr tt).
Proof.
  intros Hbody. induction acts as [| a acts IH]; [reflexivity |].
  cbn [for_each flat_map]. rewrite Hbody, IH. reflexivity.
Qed.

Lemma flat_map_blocks_length (acts : list Activity) :
  List.length (flat_map activity_block acts) = (4 * List.length acts)%nat.
Proof.
  induction acts as [| a acts IH]; [reflexivity |].
  cbn [flat_map List.length activity_block app]. rewrite IH. lia.
Qed.

(** X14: the plan tab never fails: it shows the success message, four
    events per activity in the order of the plan, and last the download
    button, whose document reads back as the plan. *)
Theorem plan_tab_shows_every_activity
  (age : Z) (level character : string) (sessions minutes : Z) :
  let plan := rule_based_plan age level character sessions minutes in
  plan_tab age level character sessions minutes
  = ((St_success "주간 계획이 생성되었습니다."
      :: flat_map activity_block (activities plan)
      ++ [St_download_button "다운로드: 주간 계획 JSON" (week_plan_json plan)
            "week_plan.json" "application/json"])%list,
     inr tt) /\
  List.length (flat_map activity_block (activities plan))
  = (4 * Z.to_nat sessions)%nat /\
  Json.loads (week_plan_json plan) = Some (py_of_plan plan).
Proof.
  intros plan. split; [| split].
  - unfold plan_tab. fold plan.
    rewrite (for_each_blocks (activities plan)) by (intros a; reflexivity).
    reflexivity.
  - rewrite flat_map_blocks_length. unfold plan.
    now rewrite PlannerFacts.activities_length.
  - apply export_reads_back.
Qed.

End PageMore.

(** ** The search tab *)

Module SearchTabMore.
Import ClientFacts JsonFacts ClientMore PromptMore PageMore.

Lemma all_chars_app (p : ascii -> bool) (a b : string) :
  all_chars p (a ++ b) = all_chars p a && all_chars p b.
Proof.
  induction a as [| c a IH]; [reflexivity |].
  cbn [append all_chars]. now rewrite IH, andb_assoc.
Qed.

Lemma quote_byte_url_chars (c : ascii) :
  all_chars url_char (Urllib.quote_byte c) = true.
Proof. destruct c as [[] [] [] [] [] [] [] []]; reflexivity. Qed.

(** X15: a quoted text has only letters, digits and the characters
    [_.-~+%]. *)
Theorem quote_plus_is_url_safe (s : string) :
  all_chars url_char (Urllib.quote_plus s) = true.
Proof.
  induction s as [| c s IH]; [reflexivity |].
  cbn [Urllib.quote_plus]. now rewrite all_chars_app, quote_byte_url_chars, IH.
Qed.

Lemma unquote_quote_byte (c : ascii) (t : string) :
  unquote_plus (Urllib.quote_byte c ++ t) = String c (unquote_plus t).
Proof. destruct c as [[] [] [] [] [] [] [] []]; reflexivity. Qed.

Lemma unquote_quote_plus (s : string) : unquote_plus (Urllib.quote_plus s) = s.
Proof.
  induction s as [| c s IH]; [reflexivity |].
  cbn [Urllib.quote_plus]. now rewrite unquote_quote_byte, IH.
Qed.

(** X16: two different texts are quoted differently. *)
Theorem quote_plus_keeps_queries_apart (s t : string) :
  s <> t -> Urllib.quote_plus s <> Urllib.quote_plus t.
Proof.
  intros Hne H. apply Hne.
  rewrite <- (unquote_quote_plus s), <- (unquote_quote_plus t).
  now rewrite H.
Qed.

Lemma quote_plus_keeps_queries_apart_at_peppa :
  Urllib.quote_plus "Peppa Pig" <> Urllib.quote_plus "Peppa+Pig".
Proof.
  apply (quote_plus_keeps_queries_apart "Peppa Pig" "Peppa+Pig"). discriminate.
Defined.

(** X17: the preview of a text content has at most 303 characters, starts
    with its first 300 and is the whole content when that has no more. *)
Theorem content_preview_is_short (s : string) :
  exists t,
    content_preview (PStr s) = inr t /\
    (str_len t <= 303)%nat /\
    String.prefix (str_take 300 s) t = true /\
    ((str_len s <= 300)%nat -> t = s).
Proof.
  eexists. split; [reflexivity |].
  pose proof (str_len_take 300 s) as Hle.
  destruct (Nat.ltb_spec 300 (str_len s)) as [Hlong | Hshort].
  - split; [rewrite str_len_app; cbn [str_len]; cbn; lia |].
    split; [| lia].
    generalize (str_take 300 s). intros u.
    induction u as [| c u IH]; [reflexivity |].
    cbn [append String.prefix]. destruct (ascii_dec c c); [exact IH | congruence].
  - rewrite app_nil_s. split; [lia |]. split.
    + generalize (str_take 300 s). intros u.
      induction u as [| c u IH]; [reflexivity |].
      cbn [String.prefix]. destruct (ascii_dec c c); [exact IH | congruence].
    + intros _. now apply str_take_all.
Qed.

Lemma content_preview_is_short_at_hello :
  exists t,
    content_preview (PStr "hello") = inr t /\
    (str_len t <= 303)%nat /\
    String.prefix (str_take 300 "hello") t = true /\
    ((str_len "hello" <= 300)%nat -> t = "hello").
Proof. apply (content_preview_is_short "hello"). Defined.

Lemma count_posts_app (a b : list event) :
  count_posts (a ++ b) = (count_posts a + count_posts b)%nat.
Proof. unfold count_posts. now rewrite filter_app, length_app. Qed.

Lemma count_page_posts_app (a b : list page_event) :
  count_page_posts (a ++ b) = (count_page_posts a + count_page_posts b)%nat.
Proof. unfold count_page_posts. now rewrite filter_app, length_app. Qed.

Lemma bind_posts {A B : Type} (m : io A) (k : A -> io B) (a b : nat) :
  (count_posts (fst m) <= a)%nat ->
  (forall x, (count_posts (fst (k x)) <= b)%nat) ->
  (count_posts (fst (bind m k)) <= a + b)%nat.
Proof.
  intros Hm Hk. destruct m as [tr [e | x]]; cbn [bind fst] in *; [lia |].
  specialize (Hk x). destruct (k x) as [tr' r]. cbn [fst] in *.
  rewrite count_posts_app. lia.
Qed.

Lemma page_bind_posts {A B : Type} (m : page A) (k : A -> page B) (a b : nat) :
  (count_page_posts (fst m) <= a)%nat ->
  (forall x, (count_page_posts (fst (k x)) <= b)%nat) ->
  (count_page_posts (fst (page_bind m k)) <= a + b)%nat.
Proof.
  intros Hm Hk. destruct m as [tr [e | x]]; cbn [page_bind fst] in *; [lia |].
  specialize (Hk x). destruct (k x) as [tr' r]. cbn [fst] in *.
  rewrite count_page_posts_app. lia.
Qed.

Lemma for_each_posts (items : list pyval) :
  (count_posts (fst (for_each items write_item)) <= 0)%nat.
Proof. unfold count_posts. now rewrite for_each_no_post. Qed.

Lemma page_for_each_posts {A : Type} (xs : list A) (body : A -> page unit) :
  (forall x, (count_page_posts (fst (body x)) <= 0)%nat) ->
  (count_page_posts (fst (page_for_each xs body)) <= 0)%nat.
Proof.
  intros Hbody. induction xs as [| x xs IH]; [cbn; lia |].
  cbn [page_for_each].
  apply (page_bind_posts (body x) _ 0 0); [apply Hbody | intros _; exact IH].
Qed.

Lemma run_posts {A : Type} (m : io A) :
  count_page_posts (fst (run m)) = count_posts (fst m).
Proof.
  unfold run, count_page_posts, count_posts. cbn [fst].
  induction (fst m) as [| ev tr IH]; [reflexivity |].
  cbn [map filter is_page_post]. destruct (is_post ev); cbn [List.length]; lia.
Qed.

Ltac no_posts :=
  repeat first
    [ apply (bind_posts _ _ 0 0); [| intros ?]
    | apply for_each_posts
    | (cbn; lia) ].

Lemma show_rag_posts (rag : pyval) : (count_posts (fst (show_rag rag)) <= 0)%nat.
Proof.
  unfold show_rag. destruct (truthy rag); [| cbn; lia]. no_posts.
Qed.

Lemma rag_block_posts cfg net (q : string) (results : pyval) :
  (count_posts (fst (rag_block cfg net q results)) <= 1)%nat.
Proof.
  unfold rag_block.
  apply (bind_posts _ _ 0 1); [cbn; lia | intros messages].
  apply (bind_posts _ _ 1 0); [| intros rag; apply show_rag_posts].
  destruct (aoai_chat_cases cfg net messages "0.3" 800)
    as [E | [[e E] | [v E]]]; rewrite E; cbn; lia.
Qed.

Ltac no_page_posts :=
  repeat first
    [ apply (page_bind_posts _ _ 0 0); [| intros ?]
    | (cbn; lia) ].

Lemma show_doc_posts (doc : pyval) :
  (count_page_posts (fst (show_doc doc)) <= 0)%nat.
Proof.
  unfold show_doc.
  repeat first
    [ apply (page_bind_posts _ _ 0 0); [| intros ?]
    | match goal with |- context [if ?b then _ else _] => destruct b end
    | (cbn; lia) ].
Qed.

Lemma youtube_section_posts (q : string) :
  (count_page_posts (fst (youtube_section q)) <= 0)%nat.
Proof.
  unfold youtube_section.
  apply (page_bind_posts _ _ 0 0); [cbn; lia | intros _].
  apply (page_bind_posts _ _ 0 0); [cbn; lia | intros _].
  cbv zeta. destruct (bank_get yt_samples q []) as [| u us] eqn:E; [cbn; lia |].
  apply page_for_each_posts. intros url. cbn. lia.
Qed.

(** X18: a press of the search button posts at most one request when the
    enrichment is off and at most two when it is on. *)
Theorem search_tab_posts_at_most_once_per_backend
  cfg net (q : string) (top : Z) (do_rag : bool) :
  (count_page_posts (fst (search_tab cfg net q top do_rag))
   <= if do_rag then 2 else 1)%nat.
Proof.
  unfold search_tab.
  replace (if do_rag then 2%nat else 1%nat)
    with (1 + (if do_rag then 1 else 0))%nat by (destruct do_rag; reflexivity).
  apply page_bind_posts.
  - rewrite run_posts.
    destruct (azure_search_cases cfg net q top)
      as [E | [[e E] | [v E]]]; rewrite E; cbn; lia.
  - intros results. destruct (negb (truthy results)); [cbn; lia |].
    apply (page_bind_posts _ _ 0); [cbn; lia | intros docs].
    apply (page_bind_posts _ _ 0);
      [apply page_for_each_posts, show_doc_posts | intros _].
    apply (page_bind_posts _ _ 0); [apply youtube_section_posts | intros _].
    destruct do_rag; [| cbn; lia].
    rewrite run_posts. apply rag_block_posts.
Qed.

(** X19: when the search warned or reported an error, the page adds the
    message that there is no result and nothing else: no document, no video,
    no enrichment. *)
Theorem failed_search_shows_no_results
  cfg net (q : string) (top : Z) (do_rag : bool) :
  silent (fst (azure_search cfg net q top)) = false ->
  search_tab cfg net q top do_rag
  = ((map Ui (fst (azure_search cfg net q top))
      ++ [St_info "검색 결과가 없습니다."])%list, inr tt).
Proof.
  intros Hsignal. unfold search_tab.
  destruct (azure_search_cases cfg net q top) as [E | [[e E] | [v E]]];
    rewrite E in *; [reflexivity | reflexivity | discriminate Hsignal].
Qed.

Lemma failed_search_shows_no_results_at_500 :
  search_tab sample_settings (fun _ => Response 500 "") "bluey" 5 true
  = ((map Ui (fst (azure_search sample_settings (fun _ => Response 500 "")
                     "bluey" 5))
      ++ [St_info "검색 결과가 없습니다."])%list, inr tt).
Proof.
  apply (failed_search_shows_no_results sample_settings
           (fun _ => Response 500 "") "bluey" 5 true).
  reflexivity.
Defined.

Lemma fst_show_then {B : Type} (ev : page_event) (k : unit -> page B) :
  fst (page_bind (show ev) k) = ev :: fst (k tt).
Proof. cbn [page_bind show]. destruct (k tt). reflexivity. Qed.

Lemma fst_lift_then {A B : Type} (x : A) (k : A -> page B) :
  fst (page_bind (page_lift (inr x)) k) = fst (k x).
Proof. cbn [page_bind page_lift]. destruct (k x). reflexivity. Qed.

(** X20: a match with neither title nor id is shown with the title [None]
    on the page, while its snippet in the prompt has the empty title. *)
Theorem nameless_match_is_shown_as_None (fields : list (string * pyval)) :
  lookup fields "title" = None -> lookup fields "id" = None ->
  sliceable (get_or fields "content" (PStr "")) = true ->
  (exists shown,
     fst (show_doc (PDict fields))
     = Ui St_container
       :: St_markdown_f [PStr "**"; PNone; PStr "**  •  ";
                         get_or fields "series" (PStr ""); PStr "  •  ";
                         get_or fields "level" (PStr "")]
       :: shown) /\
  (exists sn,
     snippet (PDict fields) = inr (PDict sn) /\
     lookup sn "title" = Some (PStr "")).
Proof.
  intros Ht Hi Hs. split.
  - unfold show_doc. rewrite !dict_get_pairs.
    rewrite fst_show_then, !fst_lift_then, fst_show_then.
    unfold get_or at 1 2. rewrite Ht, Hi. eexists. reflexivity.
  - destruct (snippet_of_dict fields Hs) as (content & _ & Hsn).
    eexists. split; [exact Hsn |].
    unfold get_or at 1 2. rewrite Ht, Hi. reflexivity.
Qed.

Lemma nameless_match_is_shown_as_None_at_content_only :
  (exists shown,
     fst (show_doc (PDict [("content", PStr "hello")]))
     = Ui St_container
       :: St_markdown_f [PStr "**"; PNone; PStr "**  •  ";
                         get_or [("content", PStr "hello")] "series" (PStr "");
                         PStr "  •  ";
                         get_or [("content", PStr "hello")] "level" (PStr "")]
       :: shown) /\
  (exists sn,
     snippet (PDict [("content", PStr "hello")]) = inr (PDict sn) /\
     lookup sn "title" = Some (PStr "")).
Proof.
  apply (nameless_match_is_shown_as_None [("content", PStr "hello")]);
    reflexivity.
Defined.

End SearchTabMore.
